(** * Wind and solar generation pipeline: fetcher and preprocessing

    A shallow embedding of [utils/fetcher.py] and [utils/preprocessing.py]
    and the properties of the chunk planner, the chunk fetcher, the
    ingestion orchestrator, the deduplicator, the field normalizer and the
    processed-data quality gate; then of the checks on fetched data, of
    the request schema of [api/schemas.py], of [store_records] of
    [database/operations.py] and of the fetch and retrieve endpoints of
    [api/routes/data.py].

    Conventions of the embedding.
    - A Python exception is a value of [exn]; a computation that may raise
      returns a [result].
    - A record (a Python [dict] with string keys) is a [gmap string value].
      A key bound to Python's [None] is bound to [VNone]; an absent key has
      no binding.
    - A date is a day number in [Z]: the midnight [datetime] that
      [datetime.strptime(s, "%Y-%m-%d")] returns, counted in days.
      [timedelta(days=k)] adds [k].  The finite range of [datetime]
      (years 1 to 9999) is not part of the model.
    - The upstream HTTP service and the clock are an explicit world that
      the fetcher threads through its calls.  Of the log only the
      closing summary of a fetch is kept; the other messages have no
      part in what is returned.
    - Floats computed by the code are binary64 ([PrimFloat]); only the
      quality gate computes with them. *)

From Stdlib Require Import ZArith QArith Lia PrimFloat FloatOps SpecFloat Ascii.
From stdpp Require Import gmap strings list sorting.

Open Scope Z_scope.

(* ===================================================================== *)
(** * Python values, exceptions and builtins *)
(* ===================================================================== *)

Module Py.

(** Scalar JSON values as Python objects.  A finite float is represented
    by the rational number it denotes: equality, order and truthiness of
    Python numbers are by numeric value, so nothing is lost for them. *)
Inductive value : Type :=
  | VNone
  | VBool (b : bool)
  | VInt (n : Z)
  | VFloat (q : Q)
  | VStr (s : string).

(** The exceptions the two modules raise or let escape. *)
Inductive exn : Type :=
  | TypeError                          (* unsupported comparison or operand *)
  | IndexError                         (* list index out of range *)
  | OverflowError                      (* int too large for a float *)
  | ValueError_strptime                (* datetime.strptime rejected the text *)
  | ValueError_start_after_end (start_date end_date : string)
      (* ValueError("Start date ... is after end date ...") *)
  | ValueError_range_exceeds (days_diff : Z)
      (* ValueError("Date range exceeds 7 days: {days_diff} days") *)
  | HTTPStatusError                    (* httpx.HTTPStatusError *)
  | RequestError                       (* httpx.RequestError *)
  | RetryError                         (* tenacity.RetryError *)
  | UnexpectedError.                   (* any other exception of the HTTP layer *)

Inductive result (A : Type) : Type :=
  | Ok (a : A)
  | Raise (e : exn).
Arguments Ok {A} a.
Arguments Raise {A} e.

#[export] Instance result_ret : MRet result := fun _ a => Ok a.
#[export] Instance result_bind : MBind result := fun _ _ f r =>
  match r with
  | Ok a => f a
  | Raise e => Raise e
  end.

Definition is_ok {A} (r : result A) : bool :=
  match r with Ok _ => true | Raise _ => false end.

(** [d.get(k)] and [d.get(k, dflt)]. *)
Definition dict_get (d : gmap string value) (k : string) : value :=
  default VNone (d !! k).
Definition dict_get_default (d : gmap string value) (k : string) (dflt : value) : value :=
  default dflt (d !! k).

Definition is_none (v : value) : bool :=
  match v with VNone => true | _ => false end.

(** The number a numeric object denotes ([bool] is a subclass of [int]). *)
Definition num_val (v : value) : option Q :=
  match v with
  | VBool b => Some (inject_Z (if b then 1 else 0))
  | VInt n => Some (inject_Z n)
  | VFloat q => Some q
  | VNone | VStr _ => None
  end.

(** [a == b]. *)
Definition py_eq (a b : value) : bool :=
  match a, b with
  | VNone, VNone => true
  | VStr s, VStr t => String.eqb s t
  | _, _ =>
      match num_val a, num_val b with
      | Some x, Some y => Qeq_bool x y
      | _, _ => false
      end
  end.

(** [a < b]: numbers by value, strings by code point; every other pair of
    operands, [None < None] included, raises [TypeError]. *)
Definition py_lt (a b : value) : result bool :=
  match a, b with
  | VStr s, VStr t => Ok (String.ltb s t)
  | _, _ =>
      match num_val a, num_val b with
      | Some x, Some y => Ok (negb (Qle_bool y x))
      | _, _ => Raise TypeError
      end
  end.

(** [bool(v)]. *)
Definition py_truthy (v : value) : bool :=
  match v with
  | VNone => false
  | VStr s => negb (String.eqb s "")
  | _ => match num_val v with
         | Some x => negb (Qeq_bool x 0)
         | None => false
         end
  end.

Section Sorting.
Context {A : Type} (key : A -> value) (reverse : bool).

(** [x] stood before every element of the sorted [l] in the input; it is
    placed before the first element that does not have to precede it,
    which keeps the sort stable.  Only [<] is applied to keys. *)
Fixpoint sort_insert (x : A) (l : list A) : result (list A) :=
  match l with
  | [] => Ok [x]
  | y :: l' =>
      y_first ← (if reverse then py_lt (key x) (key y)
                 else py_lt (key y) (key x));
      if (y_first : bool) then l'' ← sort_insert x l'; Ok (y :: l'')
      else Ok (x :: y :: l')
  end.

(** [list.sort(key=key, reverse=reverse)] and [sorted]: the stable sort
    of [l], or the [TypeError] of a comparison. *)
Fixpoint py_sort (l : list A) : result (list A) :=
  match l with
  | [] => Ok []
  | x :: l' => s ← py_sort l'; sort_insert x s
  end.
End Sorting.

(** [min(l)] for a non-empty [l]: the first least element. *)
Fixpoint py_min_from (m : value) (l : list value) : result value :=
  match l with
  | [] => Ok m
  | x :: l' =>
      b ← py_lt x m;
      py_min_from (if (b : bool) then x else m) l'
  end.

(** [max(l)] for a non-empty [l]: the first greatest element
    ([x > m] is [m < x] on these operands). *)
Fixpoint py_max_from (m : value) (l : list value) : result value :=
  match l with
  | [] => Ok m
  | x :: l' =>
      b ← py_lt m x;
      py_max_from (if (b : bool) then x else m) l'
  end.

(** A [set] of values, kept as the list of its members in the order they
    were first added.  (Python iterates a set in hash order; [min], [max]
    and [sorted] of a set give the same answer for every order when they
    do not raise.) *)
Definition set_add (v : value) (s : list value) : list value :=
  if existsb (fun u => py_eq u v) s then s else s ++ [v].

(** [float(n)] for an integer [n]: the nearest binary64. *)
Definition float_of_int (n : Z) : float :=
  SF2Prim (binary_normalize prec emax n 0 false).

(** [a / b] on integers with [b <> 0].  Exact operands below [2^53]
    convert without error, and the binary64 quotient is then the
    correctly rounded quotient Python computes. *)
Definition int_truediv (a b : Z) : float :=
  (float_of_int a / float_of_int b)%float.

(** [round(x, 2)] on a float: the decimal with two fractional digits
    nearest to the exact value of [x], ties to the even digit, read back
    as the nearest binary64.  Infinities, NaN, zeros and the floats of
    magnitude [2^52] and more (all of them integers) are returned
    unchanged.  (The read-back is exact for hundredths below [2^53],
    which covers every percentage.) *)
Definition py_round2 (x : float) : float :=
  match Prim2SF x with
  | S754_finite s m e =>
      if 0 <=? e then x
      else
        let num := 100 * Z.pos m in
        let den := 2 ^ (- e) in
        let q := num / den in
        let r := num mod den in
        let n := if 2 * r <? den then q
                 else if den <? 2 * r then q + 1
                 else if Z.even q then q else q + 1 in
        let y := (float_of_int n / float_of_int 100)%float in
        if s then (- y)%float else y
  | _ => x
  end.

End Py.
Export Py.

(* ===================================================================== *)
(** * utils/fetcher.py *)
(* ===================================================================== *)

Module Fetcher.

(** A date is a day number; a chunk is its first and its last day. *)
Abbreviation date := Z (only parsing).
Abbreviation chunk := (Z * Z)%type (only parsing).

Definition MAX_CHUNK_DAYS : Z := 6.
Definition RATE_LIMIT_DELAY : Z := 1.

(** The body of the [while] loop of [date_chunks], run at most [fuel]
    times; [None] when the loop is still running after [fuel] rounds. *)
Fixpoint date_chunks_loop (fuel : nat) (current end_ days : Z) : option (list chunk) :=
  if current <=? end_ then
    match fuel with
    | O => None
    | S fuel' =>
        let chunk_end := current + (days - 1) in
        let chunk_end := Z.min chunk_end end_ in
        let actual_days := (chunk_end - current) + 1 in
        let chunk_end := if actual_days >? days
                         then current + (days - 1) else chunk_end in
        cons (current, chunk_end)
          <$> date_chunks_loop fuel' (chunk_end + 1) end_ days
    end
  else Some [].

(** The sequence the generator [date_chunks(start, end, days)] yields.
    One round per day of the range is enough whenever [days] is
    positive; [None] stands for a generator that never finishes. *)
Definition date_chunks (start end_ : date) (days : Z) : option (list chunk) :=
  date_chunks_loop (Z.to_nat (end_ - start + 1)) start end_ days.

(** What the world records of a run. *)
Inductive event : Type :=
  | EvRequest (from_dt to_dt : date)       (* client.get(BASE_URL, ...) *)
  | EvSleep (seconds : Z)                  (* time.sleep / tenacity's wait *)
  | EvSummary (successful failed : Z).     (* "Successful chunks: .., Failed chunks: .." *)

(** What one HTTP exchange comes to, seen from [fetch_single_chunk]. *)
Inductive response : Type :=
  | RespData (raw_data : list (gmap string value))
      (* status 2xx, a JSON object; [raw_data] is its "data" list, [[]] when absent *)
  | RespHTTPStatusError                    (* raise_for_status() raised *)
  | RespRequestError                       (* the transport failed *)
  | RespUnexpected.                        (* anything else, e.g. a body that is not JSON *)

(** The record built from one upstream record. *)
Definition transform (record : gmap string value) : gmap string value :=
  <["publishTime" := dict_get record "publishTime"]>
  (<["businessType" := dict_get record "businessType"]>
  (<["psrType" := dict_get record "psrType"]>
  (<["fuelType" := dict_get record "psrType"]>
  (<["quantity" := dict_get record "quantity"]>
  (<["startTime" := dict_get record "startTime"]>
  (<["settlementDate" := dict_get record "settlementDate"]>
  (<["settlementPeriod" := dict_get record "settlementPeriod"]>
  (<["region" := VStr "GB"]> ∅)))))))).

(** [wait_exponential(multiplier=1, min=4, max=10)] after attempt number
    [attempt]. *)
Definition wait_exponential (attempt : Z) : Z :=
  Z.max (Z.max 0 4) (Z.min (1 * 2 ^ (attempt - 1)) 10).

(** The accumulators of [fetch_generation_data]. *)
Record fetch_state : Type := FetchState {
  all_data : list (gmap string value);
  successful_chunks : Z;
  failed_chunks : Z
}.

(** [enumerate(l, k)]. *)
Fixpoint enumerate {A} (k : Z) (l : list A) : list (Z * A) :=
  match l with
  | [] => []
  | x :: l' => (k, x) :: enumerate (k + 1) l'
  end.

Section Upstream.
(** The upstream service: a state, and what a request for a range of
    dates is answered in that state. *)
Context {net : Type} (http_get : net -> date -> date -> response * net).
(** [datetime.strptime(s, "%Y-%m-%d")], [None] when it raises. *)
Context (strptime : string -> option date).

Record world : Type := World { upstream : net; trace : list event }.

Definition emit (ev : event) (w : world) : world :=
  World (upstream w) (trace w ++ [ev]).

(** The undecorated body of [fetch_single_chunk]. *)
Definition fetch_single_chunk_body (from_dt to_dt : date) (w : world)
  : result (list (gmap string value)) * world :=
  let days_diff := (to_dt - from_dt) + 1 in
  if days_diff >? 7 then (Raise (ValueError_range_exceeds days_diff), w)
  else
    let '(resp, n) := http_get (upstream w) from_dt to_dt in
    let w' := World n (trace w ++ [EvRequest from_dt to_dt]) in
    match resp with
    | RespData raw_data => (Ok (transform <$> raw_data), w')
    | RespHTTPStatusError => (Raise HTTPStatusError, w')
    | RespRequestError => (Raise RequestError, w')
    | RespUnexpected => (Raise UnexpectedError, w')
    end.

(** The [@retry] decorator: an [httpx] error is retried after a wait
    while attempts remain, and ends in [RetryError] when none does; any
    other outcome is passed on at once. *)
Fixpoint retrying (remaining : nat) (attempt : Z) (from_dt to_dt : date) (w : world)
  : result (list (gmap string value)) * world :=
  let '(r, w1) := fetch_single_chunk_body from_dt to_dt w in
  let again :=
    match remaining with
    | O => (Raise RetryError, w1)
    | S k => retrying k (attempt + 1) from_dt to_dt
               (emit (EvSleep (wait_exponential attempt)) w1)
    end in
  match r with
  | Raise HTTPStatusError => again
  | Raise RequestError => again
  | _ => (r, w1)
  end.

(** [fetch_single_chunk]: [stop_after_attempt(3)]. *)
Definition fetch_single_chunk
  : date -> date -> world -> result (list (gmap string value)) * world :=
  retrying 2 1.

(** One round of the [for] loop over the enumerated chunks. *)
Definition process_chunk (expected_chunks : Z) (sw : fetch_state * world)
    (item : Z * chunk) : fetch_state * world :=
  let '(st, w) := sw in
  let '(chunk_num, (from_dt, to_dt)) := item in
  let '(r, w1) := fetch_single_chunk from_dt to_dt w in
  match r with
  | Ok data =>
      let st1 :=
        match data with
        | [] => st
        | _ :: _ => FetchState (all_data st ++ data)
                      (successful_chunks st + 1) (failed_chunks st)
        end in
      let w2 := if chunk_num <? expected_chunks
                then emit (EvSleep RATE_LIMIT_DELAY) w1 else w1 in
      (st1, w2)
  | Raise _ =>
      (FetchState (all_data st) (successful_chunks st) (failed_chunks st + 1), w1)
  end.

(** [fetch_generation_data]: the value returned or the exception raised,
    and the world afterwards; [None] if the planner never finished. *)
Definition fetch_generation_data (start_date end_date : string) (w : world)
  : option (result (list (gmap string value)) * world) :=
  match strptime start_date with
  | None => Some (Raise ValueError_strptime, w)
  | Some start =>
      match strptime end_date with
      | None => Some (Raise ValueError_strptime, w)
      | Some end_ =>
          if start >? end_
          then Some (Raise (ValueError_start_after_end start_date end_date), w)
          else
            let total_days := (end_ - start) + 1 in
            let expected_chunks :=
              (total_days + MAX_CHUNK_DAYS - 1) / MAX_CHUNK_DAYS in
            chunks ← date_chunks start end_ MAX_CHUNK_DAYS;
            let '(st, w') :=
              foldl (process_chunk expected_chunks)
                    (FetchState [] 0 0, w) (enumerate 1 chunks) in
            Some (Ok (all_data st),
                  emit (EvSummary (successful_chunks st) (failed_chunks st)) w')
      end
  end.
End Upstream.

End Fetcher.

(* ===================================================================== *)
(** * utils/preprocessing.py *)
(* ===================================================================== *)

Module Preprocessing.

(** ** deduplicate_data *)

Definition natural_key (record : gmap string value) : value * value * value :=
  (dict_get record "settlementDate",
   dict_get record "settlementPeriod",
   dict_get record "psrType").

(** Equality of two key tuples. *)
Definition key_eq (k1 k2 : value * value * value) : bool :=
  py_eq k1.1.1 k2.1.1 && py_eq k1.1.2 k2.1.2 && py_eq k1.2 k2.2.

(** [record_groups[key].append(record)] on the [defaultdict(list)], kept
    as the list of its items in insertion order. *)
Fixpoint group_append (groups : list (value * value * value * list (gmap string value)))
    (key : value * value * value) (record : gmap string value)
  : list (value * value * value * list (gmap string value)) :=
  match groups with
  | [] => [(key, [record])]
  | (k, records) :: groups' =>
      if key_eq k key then (k, records ++ [record]) :: groups'
      else (k, records) :: group_append groups' key record
  end.

Definition group_records (data : list (gmap string value))
  : list (value * value * value * list (gmap string value)) :=
  foldl (fun groups record => group_append groups (natural_key record) record) [] data.

(** The key the duplicates of a group are sorted by. *)
Definition publish_key (x : gmap string value) : value :=
  dict_get_default x "publishTime" (VStr "").

(** One round of the loop over the groups: the record it appends. *)
Definition survivor (records : list (gmap string value)) : result (gmap string value) :=
  records' ← (if 1 <? Z.of_nat (length records)
              then py_sort publish_key true records
              else Ok records);
  match records' with
  | r :: _ => Ok r
  | [] => Raise IndexError
  end.

Fixpoint survivors (groups : list (value * value * value * list (gmap string value)))
  : result (list (gmap string value)) :=
  match groups with
  | [] => Ok []
  | (_, records) :: groups' =>
      r ← survivor records;
      rest ← survivors groups';
      Ok (r :: rest)
  end.

Definition deduplicate_data (data : list (gmap string value))
  : result (list (gmap string value)) :=
  match data with
  | [] => Ok []
  | _ :: _ => survivors (group_records data)
  end.

(** ** handle_missing_fields *)

Definition expected_fields : list string :=
  ["publishTime"; "businessType"; "psrType"; "quantity";
   "startTime"; "settlementDate"; "settlementPeriod"; "fuelType"; "region"]%string.

(** [missing_stats[field] += 1] on a [defaultdict(int)]. *)
Definition incr (field : string) (stats : gmap string Z) : gmap string Z :=
  <[field := default 0 (stats !! field) + 1]> stats.

(** One round of the loop over [expected_fields]. *)
Definition fill_field (record : gmap string value)
    (acc : gmap string value * gmap string Z) (field : string)
  : gmap string value * gmap string Z :=
  let '(processed_record, missing_stats) := acc in
  match record !! field with
  | Some v =>
      if is_none v
      then (<[field := VNone]> processed_record, incr field missing_stats)
      else (<[field := v]> processed_record, missing_stats)
  | None => (<[field := VNone]> processed_record, incr field missing_stats)
  end.

(** The loop over [record.items()]. *)
Definition copy_extras (record processed_record : gmap string value)
  : gmap string value :=
  map_fold (fun field v acc =>
              if bool_decide (field ∈ expected_fields) then acc
              else <[field := v]> acc)
           processed_record record.

(** One round of the loop over [data]. *)
Definition normalize_record (acc : list (gmap string value) * gmap string Z)
    (record : gmap string value) : list (gmap string value) * gmap string Z :=
  let '(processed_data, missing_stats) := acc in
  let '(processed_record, missing_stats') :=
    foldl (fill_field record) (∅, missing_stats) expected_fields in
  (processed_data ++ [copy_extras record processed_record], missing_stats').

(** The list returned, and the statistics that go to the log. *)
Definition handle_missing_fields_run (data : list (gmap string value))
  : list (gmap string value) * gmap string Z :=
  match data with
  | [] => ([], ∅)
  | _ :: _ => foldl normalize_record ([], ∅) data
  end.

Definition handle_missing_fields (data : list (gmap string value))
  : list (gmap string value) :=
  (handle_missing_fields_run data).1.

(** ** validate_processed_data *)

Definition critical_fields : list string :=
  ["settlementDate"; "settlementPeriod"; "psrType"; "quantity"]%string.

Record date_range : Type := DateRange {
  range_min : option value;
  range_max : option value;
  unique_dates : Z
}.

Record quantity_stats : Type := QuantityStats {
  q_min : value;
  q_max : value;
  q_avg : float;
  q_count : Z
}.

Record missing_stat : Type := MissingStat {
  missing_count : Z;
  missing_percentage : float
}.

(** The dictionary returned when [status] is ["success"]. *)
Record report : Type := Report {
  record_count : Z;
  fuel_types : list value;
  dates : date_range;
  missing_stats : gmap string missing_stat;
  data_quality_score : float;
  quantities : option quantity_stats;        (* [None] is the empty dict *)
  records_with_missing_critical : Z
}.

Inductive validation : Type :=
  | StatusError (message : string)
  | StatusSuccess (r : report).

(** The accumulators of the loop over [data]. *)
Record scan : Type := Scan {
  missing_critical : gmap string Z;
  missing_records : Z;
  seen_fuel_types : list value;
  seen_dates : list value;
  seen_quantities : list value
}.

(** The loop over [critical_fields] for one record. *)
Definition check_field (record : gmap string value)
    (acc : gmap string Z * bool) (field : string) : gmap string Z * bool :=
  if is_none (dict_get record field) then (incr field acc.1, true) else acc.

Definition scan_record (sc : scan) (record : gmap string value) : scan :=
  let '(missing_critical', has_missing_critical) :=
    foldl (check_field record) (missing_critical sc, false) critical_fields in
  Scan missing_critical'
       (if has_missing_critical then missing_records sc + 1 else missing_records sc)
       (if py_truthy (dict_get record "psrType")
        then set_add (dict_get record "psrType") (seen_fuel_types sc)
        else seen_fuel_types sc)
       (if py_truthy (dict_get record "settlementDate")
        then set_add (dict_get record "settlementDate") (seen_dates sc)
        else seen_dates sc)
       (if is_none (dict_get record "quantity") then seen_quantities sc
        else seen_quantities sc ++ [dict_get record "quantity"]).

(** [min(s) if s else None]. *)
Definition min_or_none (s : list value) : result (option value) :=
  match s with
  | [] => Ok None
  | x :: s' => m ← py_min_from x s'; Ok (Some m)
  end.

Definition max_or_none (s : list value) : result (option value) :=
  match s with
  | [] => Ok None
  | x :: s' => m ← py_max_from x s'; Ok (Some m)
  end.

Section Mean.
(** [sum(quantities) / len(quantities)] for a non-empty list: float
    summation and division, left to Python. *)
Context (py_mean : list value -> result float).

Definition quantity_statistics (qs : list value) : result (option quantity_stats) :=
  match qs with
  | [] => Ok None
  | x :: qs' =>
      lo ← py_min_from x qs';
      hi ← py_max_from x qs';
      avg ← py_mean qs;
      Ok (Some (QuantityStats lo hi avg (Z.of_nat (length qs))))
  end.

(** The loop that builds [missing_stats] from [missing_critical]. *)
Definition missing_statistics (total : Z) (missing_critical : gmap string Z)
  : gmap string missing_stat :=
  foldl (fun acc field =>
           match missing_critical !! field with
           | Some c =>
               <[field := MissingStat c (int_truediv c total * float_of_int 100)%float]> acc
           | None => acc
           end)
        ∅ critical_fields.

Definition validate_processed_data (data : list (gmap string value))
  : result validation :=
  match data with
  | [] => Ok (StatusError "No data to validate")
  | _ :: _ =>
      let total := Z.of_nat (length data) in
      let sc := foldl scan_record (Scan ∅ 0 [] [] []) data in
      let score :=
        (int_truediv (total - missing_records sc) total * float_of_int 100)%float in
      let stats := missing_statistics total (missing_critical sc) in
      qstats ← quantity_statistics (seen_quantities sc);
      fuels ← py_sort (fun v => v) false (seen_fuel_types sc);
      dmin ← min_or_none (seen_dates sc);
      dmax ← max_or_none (seen_dates sc);
      Ok (StatusSuccess
            (Report total fuels
               (DateRange dmin dmax (Z.of_nat (length (seen_dates sc))))
               stats (py_round2 score) qstats (missing_records sc)))
  end.
End Mean.

End Preprocessing.

(* ===================================================================== *)
(** * utils/fetcher.py: the checks on fetched data *)
(* ===================================================================== *)

Module FetcherChecks.
Import Fetcher Preprocessing.

(** ** validate_data_quality *)

Definition required_fields : list string :=
  ["settlementDate"; "settlementPeriod"; "psrType"; "quantity"]%string.

(** The dictionary returned when [status] is ["success"].  The two sets
    the code turns into lists come out in no particular order:
    [fuel_types] is the list of the members in the order they were
    added, [missing_fields] is a set. *)
Record quality_report : Type := QualityReport {
  total_records : Z;
  fuel_types : list value;
  min_date : option value;
  max_date : option value;
  missing_fields : gset string
}.

Inductive quality_check : Type :=
  | QualityError (message : string)
  | QualitySuccess (r : quality_report).

(** [v in s] on a set kept as the list of its members. *)
Definition set_mem (v : value) (s : list value) : bool :=
  existsb (fun u => py_eq u v) s.

(** One round of the loop over [required_fields]. *)
Definition note_missing (record : gmap string value)
    (missing_fields : list string) (field : string) : list string :=
  match record !! field with
  | Some v => if is_none v then missing_fields ++ [field] else missing_fields
  | None => missing_fields ++ [field]
  end.

Definition validate_data_quality (data : list (gmap string value))
  : result quality_check :=
  match data with
  | [] => Ok (QualityError "No data received")
  | _ :: _ =>
      let total_records := Z.of_nat (length data) in
      let sample_size := Z.min 100 (Z.of_nat (length data)) in
      let missing_fields :=
        foldl (fun missing_fields record =>
                 foldl (note_missing record) missing_fields required_fields)
              [] (take (Z.to_nat sample_size) data) in
      let fuel_types :=
        foldl (fun s record => set_add (dict_get_default record "psrType" (VStr "")) s)
              [] (List.filter (fun record => py_truthy (dict_get record "psrType")) data) in
      let dates :=
        (fun record => dict_get_default record "settlementDate" (VStr ""))
          <$> List.filter (fun record => py_truthy (dict_get record "settlementDate")) data in
      min_date ← min_or_none dates;
      max_date ← max_or_none dates;
      Ok (QualitySuccess
            (QualityReport total_records fuel_types min_date max_date
               (list_to_set missing_fields)))
  end.

(** ** get_failed_date_ranges *)

Section Dates.
(** [datetime.strptime(s, "%Y-%m-%d")], [None] when it raises, and
    [d.strftime("%Y-%m-%d")]. *)
Context (strptime : string -> option date) (strftime : date -> string).


Section Ranges.
Context (successful_dates : list value) (end_ : date).


End Ranges.

End Dates.

End FetcherChecks.

(* ===================================================================== *)
(** * api/schemas.py: the request of the fetch endpoint *)
(* ===================================================================== *)

Module Schemas.
Import Fetcher.

(** The [ValueError] of a validator. *)
Inductive validation_error : Type :=
  | EndBeforeStart        (* 'End date must be after start date' *)
  | DateInFuture.         (* 'Date cannot be in the future' *)

(** The validator of [end_date]; [values] holds the fields validated so
    far. *)
Definition validate_date_range (v : date) (values : gmap string date)
  : validation_error + date :=
  match values !! "start_date" with
  | Some start_date => if v <? start_date then inl EndBeforeStart else inr v
  | None => inr v
  end.

(** The validator of both dates; [today] is [date.today()]. *)
Definition validate_date_not_future (today v : date) : validation_error + date :=
  if v >? today then inl DateInFuture else inr v.

(** One field through its validators, in the order they are declared. *)
Fixpoint run_validators (validators : list (date -> validation_error + date)) (v : date)
  : validation_error + date :=
  match validators with
  | [] => inr v
  | f :: validators' =>
      match f v with
      | inl e => inl e
      | inr v' => run_validators validators' v'
      end
  end.

(** [FetchDataRequest(start_date=.., end_date=..)] on two dates: the
    fields are validated in the order they are declared; a field that
    passed is added to [values], a field that failed is reported and
    left out of it.  The request is built when no field failed. *)
Definition FetchDataRequest (today start_date end_date : date)
  : list (string * validation_error) + date * date :=
  let '(values, errors) :=
    match run_validators [validate_date_not_future today] start_date with
    | inl e => (∅, [("start_date"%string, e)])
    | inr v => (<["start_date" := v]> (∅ : gmap string date), [])
    end in
  match run_validators [fun v => validate_date_range v values;
                        validate_date_not_future today] end_date with
  | inl e => inl (errors ++ [("end_date"%string, e)])
  | inr v =>
      match errors, values !! "start_date" with
      | [], Some start => inr (start, v)
      | _, _ => inl errors
      end
  end.

End Schemas.

(* ===================================================================== *)
(** * database/operations.py: storing records *)
(* ===================================================================== *)

Module Operations.
Import Fetcher.

(** [s.replace('Z', '+00:00')]. *)
Fixpoint replace_Z (s : string) : string :=
  match s with
  | EmptyString => EmptyString
  | String c s' =>
      if Ascii.eqb c "Z"%char then ("+00:00" ++ replace_Z s')%string
      else String c (replace_Z s')
  end.

(** What [store_records] returns. *)
Record storage_result : Type := StorageResult {
  inserted : Z;
  updated : Z;
  errors : Z
}.

Section Session.
(** The SQLAlchemy session: its state, the rows it hands out, the
    exceptions it raises, and the [datetime] values the code parses. *)
Context {session row timestamp E : Type}.

(** The value bound to a column: the record's own value, or the date or
    the [datetime] parsed from it. *)
Inductive column : Type :=
  | CValue (v : value)
  | CDate (d : date)
  | CDateTime (t : timestamp).

(** The values of one record, column by column. *)
Record columns : Type := Columns {
  publish_time : column;
  business_type : value;
  psr_type : value;
  quantity : value;
  start_time : column;
  settlement_date : column;
  settlement_period : value;
  fuel_type : value;
  region : value
}.

(** [datetime.strptime(s, '%Y-%m-%d').date()] and
    [datetime.fromisoformat(s)], [None] when they raise. *)
Context (strptime : string -> option date)
        (fromisoformat : string -> option timestamp).
(** [session.query(..).filter(and_(..)).first()] on the three key
    columns: a row, no row, or an exception. *)
Context (query_first : session -> column -> value -> value -> (option row + E) * session).
(** The assignments to the six columns of an existing row that are not
    part of the key, and to [updated_at]; like [session.add] below they
    are taken not to raise. *)
Context (update : session -> row -> columns -> session).
(** [session.add(WindSolarGeneration(..))]. *)
Context (add : session -> columns -> session).
(** [session.commit()], with the exception it raised if any, and
    [session.rollback()]. *)
Context (commit : session -> option E * session)
        (rollback : session -> session).

(** A value that is parsed as a [datetime] when it is a non-empty
    string; [None] when the parser raises. *)
Definition parse_time (v : value) : option column :=
  match v with
  | VStr s =>
      if negb (String.eqb s "")
      then CDateTime <$> fromisoformat (replace_Z s)
      else Some (CValue v)
  | _ => Some (CValue v)
  end.

(** The counters of the loop. *)
Record tally : Type := Tally {
  inserted_count : Z;
  updated_count : Z;
  error_count : Z
}.

(** One round of the loop over [records]: the inner [try]. *)
Definition store_record (acc : tally * session) (record : gmap string value)
  : tally * session :=
  let '(t, s) := acc in
  let failed := (Tally (inserted_count t) (updated_count t) (error_count t + 1), s) in
  let settlement_date :=
    match dict_get record "settlementDate" with
    | VStr text => CDate <$> strptime text
    | v => Some (CValue v)
    end in
  match settlement_date with
  | None => failed
  | Some settlement_date =>
      match parse_time (dict_get record "publishTime") with
      | None => failed
      | Some publish_time =>
          match parse_time (dict_get record "startTime") with
          | None => failed
          | Some start_time =>
              let cols :=
                Columns publish_time (dict_get record "businessType")
                  (dict_get record "psrType") (dict_get record "quantity")
                  start_time settlement_date (dict_get record "settlementPeriod")
                  (dict_get record "fuelType")
                  (dict_get_default record "region" (VStr "GB")) in
              let '(found, s1) :=
                query_first s settlement_date (dict_get record "settlementPeriod")
                  (dict_get record "psrType") in
              match found with
              | inr _ =>
                  (Tally (inserted_count t) (updated_count t) (error_count t + 1), s1)
              | inl (Some existing) =>
                  (Tally (inserted_count t) (updated_count t + 1) (error_count t),
                   update s1 existing cols)
              | inl None =>
                  (Tally (inserted_count t + 1) (updated_count t) (error_count t),
                   add s1 cols)
              end
          end
      end
  end.

(** [store_records]: the dictionary returned or the exception raised,
    and the session afterwards. *)
Definition store_records (s : session) (records : list (gmap string value))
  : (storage_result + E) * session :=
  match records with
  | [] => (inl (StorageResult 0 0 0), s)
  | _ :: _ =>
      let '(t, s1) := foldl store_record (Tally 0 0 0, s) records in
      let '(raised, s2) := commit s1 in
      match raised with
      | None =>
          (inl (StorageResult (inserted_count t) (updated_count t) (error_count t)), s2)
      | Some e => (inr e, rollback s2)
      end
  end.
End Session.

End Operations.

(* ===================================================================== *)
(** * api/routes/data.py: fetching and storing *)
(* ===================================================================== *)

Module DataRoute.
Import Fetcher Preprocessing FetcherChecks Operations.

(** The exceptions of the route: FastAPI's [HTTPException], an exception
    of the fetcher or of the preprocessing, an exception of the database
    layer.  The detail of an [HTTPException] is one of the route's
    messages or [str(e)] for the exception [e] it reports. *)
Inductive failure (E : Type) : Type :=
  | HTTPException (status_code : Z) (detail : detail E)
  | Raised (e : exn)
  | DatabaseError (e : E)
with detail (E : Type) : Type :=
  | NoDataFound
      (* "No data found for the specified date range" *)
  | DataValidationFailed (message : string)
      (* f"Data validation failed: {message}" *)
  | ProcessedValidationFailed (message : string)
      (* f"Processed data validation failed: {message}" *)
  | StrOf (e : failure E).
      (* str(e) *)
Arguments HTTPException {E} status_code detail.
Arguments Raised {E} e.
Arguments DatabaseError {E} e.
Arguments NoDataFound {E}.
Arguments DataValidationFailed {E} message.
Arguments ProcessedValidationFailed {E} message.
Arguments StrOf {E} e.

Inductive outcome (E A : Type) : Type :=
  | Done (a : A)
  | Failed (e : failure E).
Arguments Done {E A} a.
Arguments Failed {E A} e.

(** What [_fetch_and_process_data] returns. *)
Record pipeline_result : Type := PipelineResult {
  fetched : Z;
  stored : Z;
  failed_chunks : Z
}.

Inductive response_message : Type :=
  | BackgroundStarted (date_diff : Z)
      (* f"Background processing started for {date_diff} days" *)
  | StoredSuccessfully.
      (* "Data fetched and stored successfully" *)

Record FetchDataResponse : Type := Build_FetchDataResponse {
  status : string;
  message : response_message;
  records_fetched : Z;
  records_stored : Z;
  processing_time : Q;
  response_failed_chunks : Z
}.

Section Route.
(** The upstream service and the two date conversions. *)
Context {net : Type} (http_get : net -> date -> date -> response * net).
Context (strptime : string -> option date) (strftime : date -> string).
(** The float mean of the quality gate. *)
Context (py_mean : list value -> result float).
(** The database behind [db_ops]: a state, and what [store_records]
    returns or raises on it. *)
Context {db E : Type}
        (store_records : db -> list (gmap string value) -> (storage_result + E) * db).
(** The reading of [datetime.utcnow()] in seconds. *)
Context (utcnow : @world net -> Q).

Definition _fetch_and_process_data (start_date end_date : string)
    (w : @world net) (d : db)
  : option (outcome E pipeline_result * @world net * db) :=
  '(r, w1) ← fetch_generation_data http_get strptime start_date end_date w;
  Some
    match r with
    | Raise e => (Failed (Raised e), w1, d)
    | Ok raw_data =>
        match raw_data with
        | [] => (Failed (HTTPException 404 NoDataFound), w1, d)
        | _ :: _ =>
            match validate_data_quality raw_data with
            | Raise e => (Failed (Raised e), w1, d)
            | Ok (QualityError message) =>
                (Failed (HTTPException 400 (DataValidationFailed message)), w1, d)
            | Ok (QualitySuccess _) =>
                match deduplicate_data raw_data with
                | Raise e => (Failed (Raised e), w1, d)
                | Ok deduplicated_data =>
                    let processed_data := handle_missing_fields deduplicated_data in
                    match validate_processed_data py_mean processed_data with
                    | Raise e => (Failed (Raised e), w1, d)
                    | Ok (StatusError message) =>
                        (Failed (HTTPException 400 (ProcessedValidationFailed message)),
                         w1, d)
                    | Ok (StatusSuccess _) =>
                        let '(storage, d1) := store_records d processed_data in
                        match storage with
                        | inr e => (Failed (DatabaseError e), w1, d1)
                        | inl storage_result =>
                            (Done (PipelineResult
                                     (Z.of_nat (length raw_data))
                                     (inserted storage_result + updated storage_result)
                                     0),
                             w1, d1)
                        end
                    end
                end
            end
        end
    end.

(** [fetch_and_store_data] on a request with the two dates: the response
    or the exception, the calls handed to [background_tasks], the world
    and the database afterwards. *)
Definition fetch_and_store_data (start_date end_date : date) (w : @world net) (d : db)
  : option (outcome E FetchDataResponse * list (string * string) * @world net * db) :=
  let date_diff := (end_date - start_date) + 1 in
  if date_diff >? 30 then
    Some (Done (Build_FetchDataResponse "processing" (BackgroundStarted date_diff)
                  0 0 0 0),
          [(strftime start_date, strftime end_date)], w, d)
  else
    '(r, w1, d1) ← _fetch_and_process_data (strftime start_date) (strftime end_date) w d;
    Some
      match r with
      | Done result =>
          (Done (Build_FetchDataResponse "completed" StoredSuccessfully
                   (fetched result) (stored result)
                   (utcnow w1 - utcnow w) (failed_chunks result)),
           [], w1, d1)
      | Failed e => (Failed (HTTPException 500 (StrOf e)), [], w1, d1)
      end.
End Route.

End DataRoute.

(* ===================================================================== *)
(** * api/routes/data.py: retrieving *)
(* ===================================================================== *)

Module RetrieveRoute.
Import Fetcher.

(** [FuelType] of [api/schemas.py] and the [value] of each member. *)
Inductive FuelType : Type := WIND_OFFSHORE | WIND_ONSHORE | SOLAR.

Definition FuelType_value (ft : FuelType) : string :=
  match ft with
  | WIND_OFFSHORE => "Wind Offshore"
  | WIND_ONSHORE => "Wind Onshore"
  | SOLAR => "Solar"
  end.

Section Rows.
(** [datetime] values, the stored [Numeric] quantities, and the
    exceptions of the database layer. *)
Context {timestamp decimal E : Type}.
(** [bool(q)] and [float(q)] on a stored quantity. *)
Context (nonzero : decimal -> bool) (to_float : decimal -> float).

(** A row of [wind_solar_generation] as the route reads it; [None] is
    SQL's NULL. *)
Record row : Type := Row {
  row_settlement_date : option date;
  row_settlement_period : option Z;
  row_psr_type : option string;
  row_quantity : option decimal;
  row_fuel_type : option string;
  row_region : option string;
  row_publish_time : option timestamp
}.

(** [DataRecord] of [api/schemas.py]: every field but [publish_time] is
    required and not nullable. *)
Record DataRecord : Type := Build_DataRecord {
  settlement_date : date;
  settlement_period : Z;
  psr_type : string;
  quantity : float;
  fuel_type : string;
  region : string;
  publish_time : option timestamp
}.

Record RetrieveDataRequest : Type := Build_RetrieveDataRequest {
  start_date : option date;
  end_date : option date;
  fuel_types : option (list FuelType);
  limit : option Z
}.

Record RetrieveDataResponse : Type := Build_RetrieveDataResponse {
  status : string;
  count : Z;
  data : list DataRecord
}.

(** What the route raises: [HTTPException(status_code=500, ..)] for
    the exception it caught. *)
Inductive cause : Type :=
  | ValidationError            (* pydantic's, from [DataRecord(..)] *)
  | DatabaseError (e : E).

Inductive http_error : Type :=
  | HTTPException (status_code : Z) (detail : cause).

(** [a or b] on two nullable strings. *)
Definition str_or (a b : option string) : option string :=
  match a with
  | Some s => if String.eqb s "" then b else a
  | None => b
  end.

(** [DataRecord(..)] for one row: [None] when pydantic rejects a
    required field that is [None]. *)
Definition to_DataRecord (record : row) : option DataRecord :=
  let quantity :=
    match row_quantity record with
    | Some q => if nonzero q then to_float q else 0%float
    | None => 0%float
    end in
  settlement_date ← row_settlement_date record;
  settlement_period ← row_settlement_period record;
  psr_type ← row_psr_type record;
  fuel_type ← str_or (row_fuel_type record) (row_psr_type record);
  region ← str_or (row_region record) (Some "GB"%string);
  Some (Build_DataRecord settlement_date settlement_period psr_type quantity
          fuel_type region (row_publish_time record)).

(** The loop over the rows. *)
Fixpoint convert (records : list row) (data : list DataRecord) : option (list DataRecord) :=
  match records with
  | [] => Some data
  | record :: records' =>
      r ← to_DataRecord record;
      convert records' (data ++ [r])
  end.

(** [db_ops.get_data(start_date, end_date, fuel_types, limit)]. *)
Context {db : Type}
        (get_data : db -> option date -> option date -> option (list string) -> option Z
                    -> list row + E).

Definition retrieve_data (request : RetrieveDataRequest) (d : db)
  : http_error + RetrieveDataResponse :=
  let fuel_types :=
    match fuel_types request with
    | Some (ft :: fts) => Some (FuelType_value <$> (ft :: fts))
    | _ => None
    end in
  match get_data d (start_date request) (end_date request) fuel_types (limit request) with
  | inr e => inl (HTTPException 500 (DatabaseError e))
  | inl records =>
      match convert records [] with
      | None => inl (HTTPException 500 ValidationError)
      | Some data =>
          inr (Build_RetrieveDataResponse "success" (Z.of_nat (length data)) data)
      end
  end.
End Rows.

End RetrieveRoute.

(* ===================================================================== *)
(** * Specification vocabulary *)
(* ===================================================================== *)

Module Spec.
Import Fetcher Preprocessing.

Definition count_where {A} (p : A -> bool) (l : list A) : Z :=
  Z.of_nat (length (List.filter p l)).

(** ** Values *)

Definition is_text (v : value) : bool :=
  match v with VStr _ => true | _ => false end.


(** Numbers as [<] sees them: [bool] included. *)
Definition is_numeric (v : value) : bool :=
  match num_val v with Some _ => true | None => false end.

(** A value of the type the data model gives a nullable field. *)
Definition nullable (ty : value -> bool) (v : value) : bool :=
  is_none v || ty v.

(** A class of values any two of which [<] can compare. *)
Definition comparable (P : value -> bool) : Prop :=
  forall a b, P a -> P b -> exists r, py_lt a b = Ok r.

(** A comparable class on which [<] is a strict weak order. *)
Definition ordered (P : value -> bool) : Prop :=
  comparable P
  /\ (forall a b, P a -> P b -> py_lt a b = Ok true -> py_lt b a = Ok false)
  /\ (forall a b c, P a -> P b -> P c ->
                    py_lt a b = Ok false -> py_lt b c = Ok false -> py_lt a c = Ok false).

(** [may_precede key reverse a b]: a sort by [key] may leave [a] before
    [b]. *)
Definition may_precede {A} (key : A -> value) (reverse : bool) (a b : A) : Prop :=
  (if reverse then py_lt (key a) (key b) else py_lt (key b) (key a)) = Ok false.

(** Keys that are all text or all numbers. *)
Definition homogeneous {A} (key : A -> value) (l : list A) : bool :=
  forallb (fun a => is_text (key a)) l || forallb (fun a => is_numeric (key a)) l.

(** ** The planner *)

(** [tiles days current end_ l]: the chunks of [l] follow one another
    from [current] up to [end_], each non-empty and of at most [days]
    days. *)
Fixpoint tiles (days current end_ : Z) (l : list chunk) : Prop :=
  match l with
  | [] => current = end_ + 1
  | (s, e) :: l' =>
      s = current /\ s <= e <= end_ /\ e - s + 1 <= days /\ tiles days (e + 1) end_ l'
  end.

(** ** The fetcher and the orchestrator *)

(** The records a chunk contributes: those of its fetch, none if the
    fetch raised. *)
Definition records_of (r : result (list (gmap string value))) : list (gmap string value) :=
  match r with
  | Ok data => data
  | Raise _ => []
  end.

Definition raised (r : result (list (gmap string value))) : bool :=
  negb (is_ok r).

(** A fetch that returned at least one record. *)
Definition delivered (r : result (list (gmap string value))) : bool :=
  match r with
  | Ok (_ :: _) => true
  | _ => false
  end.

(** The sum of the record counts of the chunks that did not raise. *)
Fixpoint total_records (rs : list (result (list (gmap string value)))) : Z :=
  match rs with
  | [] => 0
  | r :: rs' => Z.of_nat (length (records_of r)) + total_records rs'
  end.

Definition is_request (ev : event) : bool :=
  match ev with EvRequest _ _ => true | _ => false end.

(** The fields the fetcher copies from an upstream record under their
    own names. *)
Definition copied_fields : list string :=
  ["publishTime"; "businessType"; "psrType"; "quantity";
   "startTime"; "settlementDate"; "settlementPeriod"]%string.

Section Runs.
Context {net : Type} (http_get : net -> Z -> Z -> response * net).

(** What [fetch_single_chunk] comes to on each planned chunk in turn,
    the upstream service starting in state [n] and each fetch leaving it
    in the state the next one finds. *)
Fixpoint chunk_results (chunks : list chunk) (n : net)
  : list (result (list (gmap string value))) :=
  match chunks with
  | [] => []
  | (from_dt, to_dt) :: rest =>
      let '(r, w) := fetch_single_chunk http_get from_dt to_dt (World n []) in
      r :: chunk_results rest (upstream w)
  end.
End Runs.

(** What a call does to the world it starts in: it keeps the trace it
    finds and appends to it; the result, the upstream state afterwards
    and what is appended depend on the upstream state only. *)
Definition framed {net : Type}
    (f : @world net -> result (list (gmap string value)) * @world net) : Prop :=
  forall n tr,
    f (World n tr) = ((f (World n [])).1,
                      World (upstream (f (World n [])).2)
                            (tr ++ trace (f (World n [])).2)).

(** ** The deduplicator *)

(** Two records with equal natural keys. *)
Definition same_key (a b : gmap string value) : bool :=
  key_eq (natural_key a) (natural_key b).

(** The natural keys of [data], each where it first occurs. *)
Definition first_keys (data : list (gmap string value)) : list (value * value * value) :=
  foldl (fun keys record =>
           if existsb (fun k => key_eq k (natural_key record)) keys then keys
           else keys ++ [natural_key record])
        [] data.

(** The records of [data] with natural key [key], in order. *)
Definition members (key : value * value * value) (data : list (gmap string value))
  : list (gmap string value) :=
  List.filter (fun record => key_eq key (natural_key record)) data.

(** A group the deduplicator has to sort and cannot: two records or
    more, with sort keys that are not all text or all numbers. *)
Definition mixed (records : list (gmap string value)) : bool :=
  (1 <? Z.of_nat (length records)) && negb (homogeneous publish_key records).

(** ** The normalizer and the quality gate *)

(** What the normalizer makes of one record: every expected field, bound
    to the record's value or to [None]; every other field as it is. *)
Definition normalizes_to (record processed : gmap string value) : Prop :=
  (forall field, field ∈ expected_fields ->
                 processed !! field = Some (dict_get record field))
  /\ (forall field, field ∉ expected_fields -> processed !! field = record !! field).



(** ** Examples *)


(** An upstream service that gives every request the same answer. *)
Definition always (r : response) (n : unit) (from_dt to_dt : Z) : response * unit :=
  (r, n).

(** [strptime] on the dates the examples use ([toordinal] of 2024-01-01
    is 738886). *)
Definition example_strptime (s : string) : option Z :=
  if String.eqb s "2024-01-01" then Some 738886
  else if String.eqb s "2024-01-02" then Some 738887
  else if String.eqb s "2024-01-14" then Some 738899
  else None.

(** A mean that makes every list average to zero. *)
Definition zero_mean (qs : list value) : result float := Ok 0%float.

(** A Solar record of 2024-01-01. *)
Definition solar (period : Z) (quantity : Q) (publish_time : value) : gmap string value :=
  <["settlementDate" := VStr "2024-01-01"]>
  (<["settlementPeriod" := VInt period]>
  (<["psrType" := VStr "Solar"]>
  (<["quantity" := VFloat quantity]>
  (<["publishTime" := publish_time]> ∅)))).

(** A record with the four critical fields. *)
Definition observation (settlement_date settlement_period psr_type quantity : value)
  : gmap string value :=
  <["settlementDate" := settlement_date]>
  (<["settlementPeriod" := settlement_period]>
  (<["psrType" := psr_type]>
  (<["quantity" := quantity]> ∅))).

(** An upstream record with its seven fields. *)
Definition upstream_record (publish_time : string) (psr_type : string) (quantity : Q)
    (settlement_date : string) (settlement_period : Z) : gmap string value :=
  <["publishTime" := VStr publish_time]>
  (<["businessType" := VStr "A75"]>
  (<["startTime" := VStr publish_time]>
  (observation (VStr settlement_date) (VInt settlement_period)
               (VStr psr_type) (VFloat quantity)))).

(** The payload of the repository's pipeline test. *)
Definition mock_api_data : list (gmap string value) :=
  [upstream_record "2024-01-01T00:00:00Z" "Solar" (1505 # 10) "2024-01-01" 1;
   upstream_record "2024-01-01T00:30:00Z" "Wind Onshore" (3208 # 10) "2024-01-01" 2;
   upstream_record "2024-01-01T01:00:00Z" "Wind Offshore" (4502 # 10) "2024-01-01" 3;
   upstream_record "2024-01-02T00:00:00Z" "Solar" (1803 # 10) "2024-01-02" 1].

(** The values a record binds to [fields]. *)
Definition view (fields : list string) (record : gmap string value) : list (option value) :=
  (fun field => record !! field) <$> fields.

(** The values the records of a result bind to [fields]. *)
Definition views (fields : list string) (r : result (list (gmap string value)))
  : result (list (list (option value))) :=
  match r with
  | Ok out => Ok (view fields <$> out)
  | Raise e => Raise e
  end.

(** The figures of a report. *)
Definition figures (v : validation)
  : option (Z * Z * float * list (option missing_stat)
            * list value * option value * option value) :=
  match v with
  | StatusError _ => None
  | StatusSuccess rep =>
      Some (record_count rep, records_with_missing_critical rep, data_quality_score rep,
            (fun field => missing_stats rep !! field) <$> critical_fields,
            fuel_types rep, range_min (dates rep), range_max (dates rep))
  end.

Definition figures_of (r : result validation) :=
  match r with
  | Ok v => Ok (figures v)
  | Raise e => Raise e
  end.

(** The preprocessing pipeline of the data route, on fetched records. *)
Definition preprocess (py_mean : list value -> result float)
    (raw_data : list (gmap string value)) : result validation :=
  deduplicated ← deduplicate_data raw_data;
  validate_processed_data py_mean (handle_missing_fields deduplicated).

End Spec.

(* ===================================================================== *)
(** * Specification vocabulary: checks, runs and reports *)
(* ===================================================================== *)

Module Vocabulary.
Import Fetcher Preprocessing FetcherChecks Spec.

(** A record whose [field] is absent or bound to [None]. *)
Definition lacks (field : string) (record : gmap string value) : bool :=
  is_none (dict_get record field).

(** A set of values kept as a list: no member equals a later one. *)
Definition distinct (s : list value) : Prop :=
  StronglySorted (fun a b => py_eq a b = false) s.





(** The error of the chunk fetcher on a range of more than 7 days. *)
Definition range_error (r : result (list (gmap string value))) : bool :=
  match r with
  | Raise (ValueError_range_exceeds _) => true
  | _ => false
  end.

(** A record that binds each of the nine expected fields. *)
Definition complete (record : gmap string value) : Prop :=
  forall field, field ∈ expected_fields -> is_Some (record !! field).

(** Records no two of which share a natural key. *)
Definition unique_keys (data : list (gmap string value)) : Prop :=
  StronglySorted (fun a b => same_key a b = false) data.

(** The set of the non-empty values of [field] in [data], added to [s]
    one record after the other. *)
Definition collect (field : string) (s : list value) (data : list (gmap string value))
  : list value :=
  foldl (fun s record =>
           if py_truthy (dict_get record field)
           then set_add (dict_get record field) s else s)
        s data.




End Vocabulary.

(* ===================================================================== *)
(** * Comparisons, sorting, minimum and maximum *)
(* ===================================================================== *)

Module PyFacts.
Import Spec.

Lemma count_where_cons {A} (p : A -> bool) x l :
  count_where p (x :: l) = (if p x then 1 else 0) + count_where p l.
Proof. unfold count_where. simpl. destruct (p x); simpl; lia. Qed.

Lemma text_comparable : comparable is_text.
Proof. intros [] [] Ha Hb; try done. simpl. eauto. Qed.


Section Sorting.
Context {A : Type} (key : A -> value) (reverse : bool).

Lemma sort_insert_perm x l :
  forall l', sort_insert key reverse x l = Ok l' -> l' ≡ₚ x :: l.
Proof.
  induction l as [|y l IH]; intros l'; simpl.
  - intros [= <-]. reflexivity.
  - destruct (if reverse then py_lt (key x) (key y) else py_lt (key y) (key x))
      as [[]|]; simpl; try discriminate.
    + destruct (sort_insert key reverse x l) as [l0|]; simpl; [|discriminate].
      intros [= <-]. rewrite (IH l0 eq_refl). apply Permutation_swap.
    + intros [= <-]. reflexivity.
Qed.

Lemma py_sort_perm l :
  forall l', py_sort key reverse l = Ok l' -> l' ≡ₚ l.
Proof.
  induction l as [|x l IH]; intros l'; simpl.
  - intros [= <-]. reflexivity.
  - destruct (py_sort key reverse l) as [s|]; simpl; [|discriminate].
    intros Hins. rewrite (sort_insert_perm _ _ _ Hins), (IH s eq_refl). reflexivity.
Qed.

Lemma sort_insert_total P x l :
  comparable P -> P (key x) -> Forall (fun y => P (key y)) l ->
  exists l', sort_insert key reverse x l = Ok l'.
Proof.
  intros HP Hx. induction 1 as [|y l Hy Hl IH]; simpl; [eauto|].
  assert (exists b, (if reverse then py_lt (key x) (key y)
                     else py_lt (key y) (key x)) = Ok b) as [b ->]
    by (destruct reverse; by apply HP).
  simpl. destruct b; [|eauto]. destruct IH as [l' ->]. simpl. eauto.
Qed.

(** Sorting succeeds on keys of one comparable class, and rearranges. *)
Lemma py_sort_total P l :
  comparable P -> Forall (fun y => P (key y)) l ->
  exists l', py_sort key reverse l = Ok l' /\ l' ≡ₚ l.
Proof.
  intros HP. induction 1 as [|x l Hx Hl IH]; simpl; [by exists []|].
  destruct IH as (s & Hs & Hperm). rewrite Hs. simpl.
  destruct (sort_insert_total P x s HP Hx) as [l' Hl'].
  { eapply Permutation_Forall; [symmetry; exact Hperm | exact Hl]. }
  exists l'. split; [exact Hl'|].
  rewrite (sort_insert_perm _ _ _ Hl'), Hperm. reflexivity.
Qed.
End Sorting.

Lemma py_min_from_total P l :
  comparable P -> forall m, P m -> Forall (fun y => P y) l ->
  exists v, py_min_from m l = Ok v /\ P v.
Proof.
  intros HP m Hm Hl. revert m Hm.
  induction Hl as [|x l Hx Hl IH]; intros m Hm; simpl; [eauto|].
  destruct (HP x m Hx Hm) as [b ->]. simpl. apply IH. by destruct b.
Qed.

Lemma py_max_from_total P l :
  comparable P -> forall m, P m -> Forall (fun y => P y) l ->
  exists v, py_max_from m l = Ok v /\ P v.
Proof.
  intros HP m Hm Hl. revert m Hm.
  induction Hl as [|x l Hx Hl IH]; intros m Hm; simpl; [eauto|].
  destruct (HP m x Hm Hx) as [b ->]. simpl. apply IH. by destruct b.
Qed.

(** ** Equality *)

Lemma py_eq_num a b x y :
  num_val a = Some x -> num_val b = Some y -> py_eq a b = Qeq_bool x y.
Proof. destruct a, b; simpl; intros; simplify_eq; reflexivity. Qed.

Lemma py_eq_cases a b :
  py_eq a b = true ->
  (a = VNone /\ b = VNone)
  \/ (exists s, a = VStr s /\ b = VStr s)
  \/ (exists x y, num_val a = Some x /\ num_val b = Some y /\ Qeq_bool x y = true).
Proof.
  destruct a, b; simpl; try discriminate; intros H;
    try (left; by split);
    try (right; left; apply String.eqb_eq in H; subst; by eauto);
    right; right; eauto.
Qed.

Lemma py_eq_refl v : py_eq v v = true.
Proof. destruct v; simpl; auto using Qeq_bool_refl, String.eqb_refl. Qed.

Lemma py_eq_sym a b : py_eq a b = py_eq b a.
Proof.
  destruct a, b; simpl; auto using Qeq_bool_comm, String.eqb_sym.
Qed.

Lemma py_eq_trans a b c : py_eq a b = true -> py_eq b c = true -> py_eq a c = true.
Proof.
  intros Hab Hbc.
  destruct (py_eq_cases _ _ Hab) as [[-> ->] | [(s & -> & ->) | (x & y & Hx & Hy & Hxy)]];
    try exact Hbc.
  destruct (py_eq_cases _ _ Hbc) as [[-> ->] | [(s & -> & ->) | (y' & z & Hy' & Hz & Hyz)]];
    try discriminate.
  rewrite Hy in Hy'. injection Hy' as <-.
  rewrite (py_eq_num _ _ _ _ Hx Hz). by apply Qeq_bool_trans with y.
Qed.

(** ** Order on text *)

Lemma string_compare_lt_trans :
  forall a b c : string,
    String.compare a b = Lt -> String.compare b c = Lt -> String.compare a c = Lt.
Proof.
  induction a as [|x a IH]; intros [|y b] [|z c]; simpl; try done.
  unfold Ascii.compare.
  destruct (N.compare_spec (Ascii.N_of_ascii x) (Ascii.N_of_ascii y)) as [Exy | Lxy | Gxy];
    try discriminate;
    destruct (N.compare_spec (Ascii.N_of_ascii y) (Ascii.N_of_ascii z)) as [Eyz | Lyz | Gyz];
    try discriminate; intros Hab Hbc.
  - rewrite Exy, Eyz, N.compare_refl. by apply IH with b.
  - rewrite Exy. by rewrite (proj2 (N.compare_lt_iff _ _) Lyz).
  - rewrite <- Eyz. by rewrite (proj2 (N.compare_lt_iff _ _) Lxy).
  - by rewrite (proj2 (N.compare_lt_iff _ _) (N.lt_trans _ _ _ Lxy Lyz)).
Qed.

Lemma string_ltb_asym a b : String.ltb a b = true -> String.ltb b a = false.
Proof.
  unfold String.ltb. rewrite (String.compare_antisym b a).
  by destruct (String.compare a b).
Qed.

Lemma string_ltb_false_trans a b c :
  String.ltb a b = false -> String.ltb b c = false -> String.ltb a c = false.
Proof.
  unfold String.ltb. intros Hab Hbc.
  destruct (String.compare a b) eqn:Eab; try discriminate.
  - apply String.compare_eq_iff in Eab. by subst.
  - destruct (String.compare b c) eqn:Ebc; try discriminate.
    + apply String.compare_eq_iff in Ebc. subst. by rewrite Eab.
    + assert (String.compare c a = Lt) as Hca.
      { apply string_compare_lt_trans with b;
          rewrite String.compare_antisym; by (rewrite Ebc || rewrite Eab). }
      rewrite String.compare_antisym, Hca. reflexivity.
Qed.

Lemma text_ordered : ordered is_text.
Proof.
  split; [exact text_comparable|]. split.
  - intros [] [] Ha Hb; try done. simpl. intros [= H]. f_equal.
    by apply string_ltb_asym.
  - intros [] [] [] Ha Hb Hc; try done. simpl. intros [= Hab] [= Hbc]. f_equal.
    by apply string_ltb_false_trans with s0.
Qed.

Lemma ordered_irrefl P a : ordered P -> P a -> py_lt a a = Ok false.
Proof.
  intros (Hcmp & Hasym & _) Ha.
  destruct (Hcmp a a Ha Ha) as [[] H]; [|exact H].
  rewrite (Hasym a a Ha Ha H) in H. discriminate.
Qed.

(** ** When a comparison and a sort raise *)

Lemma numeric_comparable : comparable is_numeric.
Proof. intros [] [] Ha Hb; try done; simpl; eauto. Qed.

Lemma py_lt_ok a b r :
  py_lt a b = Ok r ->
  (is_text a /\ is_text b) \/ (is_numeric a /\ is_numeric b).
Proof. destruct a, b; simpl; intros H; try discriminate; auto. Qed.

Lemma py_lt_raise a b e : py_lt a b = Raise e -> e = TypeError.
Proof. destruct a, b; simpl; intros H; try discriminate; by injection H. Qed.

Lemma text_not_numeric v : is_text v -> is_numeric v -> False.
Proof. by destruct v. Qed.

Section Raising.
Context {A : Type} (key : A -> value) (reverse : bool).

Lemma sort_insert_raise x l e :
  sort_insert key reverse x l = Raise e -> e = TypeError.
Proof.
  induction l as [|y l IH]; simpl; [discriminate|].
  destruct (if reverse then py_lt (key x) (key y) else py_lt (key y) (key x))
    as [[]|e'] eqn:Hcmp; simpl.
  - destruct (sort_insert key reverse x l) as [l0|e0]; simpl; [discriminate|].
    intros [= <-]. by apply IH.
  - discriminate.
  - intros [= <-]. destruct reverse; by apply py_lt_raise in Hcmp.
Qed.

Lemma py_sort_raise l e : py_sort key reverse l = Raise e -> e = TypeError.
Proof.
  induction l as [|x l IH]; simpl; [discriminate|].
  destruct (py_sort key reverse l) as [s|e0]; simpl.
  - apply sort_insert_raise.
  - intros [= <-]. by apply IH.
Qed.

(** A sort of two elements or more that succeeds has compared its way
    through keys of one class. *)
Lemma py_sort_ok_homogeneous l :
  forall l', (2 <= length l)%nat -> py_sort key reverse l = Ok l' ->
             Forall (fun a => is_text (key a)) l \/ Forall (fun a => is_numeric (key a)) l.
Proof.
  induction l as [|x l IH]; intros l' Hlen; simpl in *; [lia|].
  destruct (py_sort key reverse l) as [s|] eqn:Hs; simpl; [|discriminate].
  pose proof (py_sort_perm _ _ _ _ Hs) as Hperm.
  destruct s as [|y s].
  { apply Permutation_nil in Hperm. subst. simpl in Hlen. lia. }
  simpl.
  destruct (if reverse then py_lt (key x) (key y) else py_lt (key y) (key x))
    as [b|] eqn:Hcmp; simpl; [|discriminate].
  intros _.
  assert ((is_text (key x) /\ is_text (key y))
          \/ (is_numeric (key x) /\ is_numeric (key y))) as Hclass
    by (destruct reverse; apply py_lt_ok in Hcmp; tauto).
  assert (y ∈ l) as Hy by (rewrite <- Hperm; left).
  destruct (le_lt_dec 2 (length l)) as [Hlong | Hshort].
  - destruct (IH (y :: s) Hlong eq_refl) as [Hall | Hall];
      pose proof (proj1 (Forall_forall _ _) Hall y Hy) as Hky;
      destruct Hclass as [[Hx Hy'] | [Hx Hy']].
    + left. by constructor.
    + exfalso. exact (text_not_numeric (key y) Hky Hy').
    + exfalso. exact (text_not_numeric (key y) Hy' Hky).
    + right. by constructor.
  - destruct l as [|z [|z' l]]; [inversion Hy | | simpl in Hshort; lia].
    apply list_elem_of_singleton in Hy as ->.
    destruct Hclass as [[Hx Hz] | [Hx Hz]]; [left | right]; by repeat constructor.
Qed.

(** So a sort raises, and raises [TypeError], exactly when it has two
    elements or more and their keys are not all text or all numbers. *)
Lemma py_sort_raises_iff l :
  py_sort key reverse l = Raise TypeError
  <-> (2 <= length l)%nat /\ homogeneous key l = false.
Proof.
  unfold homogeneous. split.
  - intros Hraise. split.
    + destruct l as [|x [|y l]]; simpl in *; try discriminate. lia.
    + destruct (forallb _ l) eqn:Htext; simpl.
      * apply Is_true_true, forallb_True in Htext.
        destruct (py_sort_total key reverse is_text l text_comparable Htext)
          as (l' & Hok & _). congruence.
      * destruct (forallb (fun a => is_numeric (key a)) l) eqn:Hnum; [|reflexivity].
        apply Is_true_true, forallb_True in Hnum.
        destruct (py_sort_total key reverse is_numeric l numeric_comparable Hnum)
          as (l' & Hok & _). congruence.
  - intros [Hlen Hmixed].
    destruct (py_sort key reverse l) as [l'|e] eqn:Hrun.
    + exfalso. apply orb_false_iff in Hmixed as [Htext Hnum].
      destruct (py_sort_ok_homogeneous l l' Hlen Hrun) as [Hall | Hall];
        apply forallb_True, Is_true_true in Hall; congruence.
    + by rewrite (py_sort_raise _ _ Hrun).
Qed.
End Raising.

(** ** Sortedness *)

Section Sorted.
Context {A : Type} (key : A -> value) (reverse : bool) (P : value -> bool).
Context (HP : ordered P).

Lemma may_precede_trans a b c :
  P (key a) -> P (key b) -> P (key c) ->
  may_precede key reverse a b -> may_precede key reverse b c ->
  may_precede key reverse a c.
Proof.
  destruct HP as (_ & _ & Htrans). unfold may_precede.
  destruct reverse; intros Ha Hb Hc Hab Hbc; eauto.
Qed.

Lemma sort_insert_sorted x l :
  P (key x) -> Forall (fun y => P (key y)) l ->
  StronglySorted (may_precede key reverse) l ->
  forall l', sort_insert key reverse x l = Ok l' ->
             StronglySorted (may_precede key reverse) l'.
Proof.
  intros Hx Hl Hsorted. revert Hl.
  induction Hsorted as [|y l Hsorted IH Hy]; intros Hl l'; simpl.
  - intros [= <-]. repeat constructor.
  - inversion Hl as [|? ? Hky Hl']; subst.
    destruct (if reverse then py_lt (key x) (key y) else py_lt (key y) (key x))
      as [[]|] eqn:Hcmp; simpl; try discriminate.
    + destruct (sort_insert key reverse x l) as [l0|] eqn:Hins; simpl; [|discriminate].
      intros [= <-]. constructor; [by apply IH|].
      rewrite (sort_insert_perm _ _ _ _ _ Hins). constructor; [|exact Hy].
      destruct HP as (_ & Hasym & _). unfold may_precede.
      destruct reverse; by apply Hasym.
    + intros [= <-]. constructor; [by constructor|].
      constructor; [exact Hcmp|].
      rewrite Forall_forall in Hy, Hl' |- *. intros z Hz.
      apply may_precede_trans with y; auto.
Qed.

(** The result of a sort is sorted. *)
Lemma py_sort_sorted l :
  Forall (fun y => P (key y)) l ->
  forall l', py_sort key reverse l = Ok l' ->
             StronglySorted (may_precede key reverse) l'.
Proof.
  induction 1 as [|x l Hx Hl IH]; intros l'; simpl.
  - intros [= <-]. constructor.
  - destruct (py_sort key reverse l) as [s|] eqn:Hs; simpl; [|discriminate].
    apply sort_insert_sorted; [exact Hx | | by apply IH].
    eapply Permutation_Forall; [symmetry; exact (py_sort_perm _ _ _ _ Hs) | exact Hl].
Qed.
End Sorted.


End PyFacts.

(* ===================================================================== *)
(** * The chunk planner *)
(* ===================================================================== *)

Module PlannerFacts.
Import Fetcher Spec.

(** Past the end of the range the generator stops at once. *)
Lemma date_chunks_loop_past fuel current end_ days :
  end_ < current -> date_chunks_loop fuel current end_ days = Some [].
Proof.
  intros Hlt. destruct fuel; simpl;
    destruct (Z.leb_spec current end_); (lia || reflexivity).
Qed.

(** One round of the loop when the chunk size is positive: the second
    assignment to [chunk_end] is never taken. *)
Lemma date_chunks_loop_round fuel current end_ days :
  0 < days -> current <= end_ ->
  date_chunks_loop (S fuel) current end_ days =
  cons (current, Z.min (current + (days - 1)) end_)
    <$> date_chunks_loop fuel (Z.min (current + (days - 1)) end_ + 1) end_ days.
Proof.
  intros Hd Hle. simpl.
  destruct (Z.leb_spec current end_); [|lia].
  destruct (Z.gtb_spec (Z.min (current + (days - 1)) end_ - current + 1) days);
    [lia | reflexivity].
Qed.

Lemma date_chunks_loop_tiles days end_ fuel :
  0 < days ->
  forall current,
    current <= end_ + 1 ->
    end_ - current + 1 <= Z.of_nat fuel ->
    exists l, date_chunks_loop fuel current end_ days = Some l
              /\ tiles days current end_ l.
Proof.
  intros Hd. induction fuel as [|fuel IH]; intros current Hle Hfuel.
  - exists []. split; [apply date_chunks_loop_past; lia | simpl; lia].
  - destruct (Z.le_gt_cases current end_) as [Hin | Hout].
    + rewrite date_chunks_loop_round by assumption.
      destruct (IH (Z.min (current + (days - 1)) end_ + 1)) as (l & -> & Hl);
        [lia | lia |].
      exists ((current, Z.min (current + (days - 1)) end_) :: l).
      split; [reflexivity|]. simpl. repeat split; (lia || exact Hl).
    + exists []. split; [apply date_chunks_loop_past; lia | simpl; lia].
Qed.

(** More rounds than needed change nothing. *)
Lemma date_chunks_loop_more days end_ fuel :
  forall current l fuel',
    date_chunks_loop fuel current end_ days = Some l ->
    (fuel <= fuel')%nat ->
    date_chunks_loop fuel' current end_ days = Some l.
Proof.
  induction fuel as [|fuel IH]; intros current l fuel' Hrun Hge.
  - simpl in Hrun. destruct (Z.leb_spec current end_); [discriminate|].
    rewrite date_chunks_loop_past by lia. exact Hrun.
  - destruct fuel' as [|fuel']; [lia|].
    simpl in *. destruct (current <=? end_); [|exact Hrun].
    match type of Hrun with
    | _ <$> date_chunks_loop _ ?c _ _ = _ =>
        destruct (date_chunks_loop fuel c end_ days) as [l0|] eqn:E;
          [|discriminate]
    end.
    erewrite IH; [exact Hrun | exact E | lia].
Qed.



Lemma tiles_bounds days end_ l :
  forall current, tiles days current end_ l ->
  Forall (fun c : chunk => current <= c.1 /\ c.1 <= c.2 <= end_ /\ c.2 - c.1 + 1 <= days) l.
Proof.
  induction l as [|[s e] l' IH]; intros current; simpl; [constructor|].
  intros (-> & Hse & Hd & Hl'). constructor; [simpl; lia|].
  eapply Forall_impl; [apply (IH _ Hl')|]. simpl. intros c. lia.
Qed.




(** The planner finishes on every range when the chunk size is positive,
    and its chunks tile the range. *)
Lemma date_chunks_tiles start end_ days :
  0 < days -> start <= end_ + 1 ->
  exists l, date_chunks start end_ days = Some l /\ tiles days start end_ l.
Proof.
  intros Hd Hle. unfold date_chunks.
  apply date_chunks_loop_tiles; [assumption | assumption | lia].
Qed.








End PlannerFacts.

(* ===================================================================== *)
(** * The chunk fetcher and the ingestion orchestrator *)
(* ===================================================================== *)

Module FetcherFacts.
Import Fetcher Spec PyFacts PlannerFacts.

Section Upstream.
Context {net : Type} (http_get : net -> Z -> Z -> response * net).
Context (strptime : string -> option Z).

(** ** One chunk *)

Lemma body_framed from_dt to_dt :
  framed (fetch_single_chunk_body http_get from_dt to_dt).
Proof.
  intros n tr. unfold fetch_single_chunk_body. simpl.
  destruct (to_dt - from_dt + 1 >? 7); simpl; [by rewrite app_nil_r|].
  destruct (http_get n from_dt to_dt) as [[] n']; reflexivity.
Qed.

Lemma retrying_framed remaining from_dt to_dt :
  forall attempt, framed (retrying http_get remaining attempt from_dt to_dt).
Proof.
  induction remaining as [|k IH]; intros attempt n tr; simpl;
    rewrite (body_framed from_dt to_dt n tr);
    destruct (fetch_single_chunk_body http_get from_dt to_dt (World n []))
      as [[data|e] [n1 tr1]]; simpl; try reflexivity.
  - destruct e; reflexivity.
  - destruct e; try reflexivity; unfold emit; simpl;
      rewrite (IH (attempt + 1) n1 ((tr ++ tr1) ++ _)),
              (IH (attempt + 1) n1 (tr1 ++ _)); simpl;
      by rewrite !app_assoc.
Qed.

Lemma fetch_single_chunk_framed from_dt to_dt :
  framed (fetch_single_chunk http_get from_dt to_dt).
Proof. apply retrying_framed. Qed.

(** An over-long range is refused by the first attempt, which is not
    retried and leaves the world as it was. *)
Lemma retrying_range_exceeds remaining attempt from_dt to_dt w :
  7 < to_dt - from_dt + 1 ->
  retrying http_get remaining attempt from_dt to_dt w
  = (Raise (ValueError_range_exceeds (to_dt - from_dt + 1)), w).
Proof.
  intros Hlong.
  destruct remaining; simpl; unfold fetch_single_chunk_body;
    destruct (Z.gtb_spec (to_dt - from_dt + 1) 7); (lia || reflexivity).
Qed.

(** A range of at most 7 days: the first attempt sends a request. *)
Lemma body_requests from_dt to_dt w :
  to_dt - from_dt + 1 <= 7 ->
  exists r n,
    fetch_single_chunk_body http_get from_dt to_dt w
    = (r, World n (trace w ++ [EvRequest from_dt to_dt]))
    /\ (forall d, r <> Raise (ValueError_range_exceeds d))
    /\ (forall raw n', http_get (upstream w) from_dt to_dt = (RespData raw, n') ->
                       r = Ok (transform <$> raw) /\ n = n').
Proof.
  intros Hshort. unfold fetch_single_chunk_body.
  destruct (Z.gtb_spec (to_dt - from_dt + 1) 7); [lia|].
  destruct (http_get (upstream w) from_dt to_dt) as [[raw| | |] n'];
    eexists _, _; (split; [reflexivity|]); (split; [discriminate|]);
    intros raw' n'' [= <- <-] || intros raw' n'' [=]; auto.
Qed.

(** The trace of a call extends the trace it started from. *)
Lemma retrying_trace remaining from_dt to_dt :
  forall attempt w,
    exists tr, trace (retrying http_get remaining attempt from_dt to_dt w).2
               = trace w ++ tr
               /\ (to_dt - from_dt + 1 <= 7 -> EvRequest from_dt to_dt ∈ tr).
Proof.
  induction remaining as [|k IH]; intros attempt w; simpl.
  - destruct (Z.le_gt_cases (to_dt - from_dt + 1) 7) as [Hs | Hl].
    + destruct (body_requests from_dt to_dt w Hs) as (r & n & -> & _).
      exists [EvRequest from_dt to_dt].
      split; [destruct r as [|[]]; reflexivity | intros _; left].
    + unfold fetch_single_chunk_body.
      destruct (Z.gtb_spec (to_dt - from_dt + 1) 7); [|lia].
      exists []. split; [by rewrite app_nil_r | lia].
  - destruct (Z.le_gt_cases (to_dt - from_dt + 1) 7) as [Hs | Hl].
    + destruct (body_requests from_dt to_dt w Hs) as (r & n & -> & _).
      assert (forall w' : @world net,
                 trace w' = trace w ++ [EvRequest from_dt to_dt] ->
                 exists tr, trace w' = trace w ++ tr
                            /\ (to_dt - from_dt + 1 <= 7 -> EvRequest from_dt to_dt ∈ tr))
        as Hnow by (intros w' ->; exists [EvRequest from_dt to_dt]; split;
                    [reflexivity | intros _; left]).
      assert (forall w1 : @world net,
                 trace w1 = (trace w ++ [EvRequest from_dt to_dt])
                            ++ [EvSleep (wait_exponential attempt)] ->
                 exists tr,
                   trace (retrying http_get k (attempt + 1) from_dt to_dt w1).2
                   = trace w ++ tr
                   /\ (to_dt - from_dt + 1 <= 7 -> EvRequest from_dt to_dt ∈ tr))
        as Hlater.
      { intros w1 Hw1. destruct (IH (attempt + 1) w1) as (tr & -> & _).
        rewrite Hw1. eexists. rewrite <- !app_assoc. split; [reflexivity|].
        intros _. apply elem_of_app. left. left. }
      destruct r as [data|e]; [apply Hnow; reflexivity|].
      destruct e; first [apply Hnow; reflexivity | apply Hlater; reflexivity].
    + unfold fetch_single_chunk_body.
      destruct (Z.gtb_spec (to_dt - from_dt + 1) 7); [|lia].
      exists []. split; [by rewrite app_nil_r | lia].
Qed.

(** [C5] A range of more than 7 days (both ends counted) makes the chunk
    fetcher raise the range error, whatever the upstream service, and
    the world is unchanged: no request was sent.  A range of at most 7
    days never raises the range error. *)
Theorem fetch_single_chunk_range_limit (from_dt to_dt : Z) (w : @world net) :
  (7 < to_dt - from_dt + 1 ->
   fetch_single_chunk http_get from_dt to_dt w
   = (Raise (ValueError_range_exceeds (to_dt - from_dt + 1)), w))
  /\ (to_dt - from_dt + 1 <= 7 ->
      forall d, (fetch_single_chunk http_get from_dt to_dt w).1
                <> Raise (ValueError_range_exceeds d)).
Proof.
  split.
  - apply retrying_range_exceeds.
  - intros Hshort d. unfold fetch_single_chunk.
    generalize 1 at 1. generalize 2%nat. intros remaining.
    revert w. induction remaining as [|k IH]; intros w attempt; simpl;
      destruct (body_requests from_dt to_dt w Hshort) as (r & n & -> & Hr & _);
      destruct r as [data|e]; simpl; try discriminate;
      destruct e; simpl; try discriminate; try apply IH;
      exfalso; by apply (Hr days_diff).
Qed.

(** What the fetcher makes of an upstream record: the seven upstream
    fields under their own names, absent ones as [None], the fuel type
    read from [psrType], the region "GB", and nothing else. *)
Theorem transform_shape (record : gmap string value) (field : string) :
  transform record !! field
  = if bool_decide (field = "region") then Some (VStr "GB")
    else if bool_decide (field = "fuelType") then Some (dict_get record "psrType")
    else if bool_decide (field ∈ copied_fields) then Some (dict_get record field)
    else None.
Proof.
  unfold transform, copied_fields.
  repeat (rewrite lookup_insert; case_decide; [subst field; reflexivity|]).
  rewrite lookup_empty.
  repeat (rewrite bool_decide_eq_false_2;
          [|first [congruence
                  |rewrite !elem_of_cons, elem_of_nil; intros Hin;
                   repeat destruct Hin as [Hin | Hin]; congruence]]).
  reflexivity.
Qed.


Lemma count_where_app {A} (p : A -> bool) l1 l2 :
  count_where p (l1 ++ l2) = count_where p l1 + count_where p l2.
Proof. unfold count_where. rewrite List.filter_app, length_app. lia. Qed.



(** ** The loop over the chunks *)



(** The loop handles every chunk: it appends the records of the fetches
    that returned, counts the fetches that delivered records and those
    that raised, and sends a request for every chunk short enough. *)
Lemma fetch_loop expected chunks :
  forall k st (w : @world net),
    exists st' w',
      foldl (process_chunk http_get expected) (st, w) (enumerate k chunks) = (st', w')
      /\ all_data st'
         = all_data st ++ concat (records_of <$> chunk_results http_get chunks (upstream w))
      /\ successful_chunks st'
         = successful_chunks st
           + count_where delivered (chunk_results http_get chunks (upstream w))
      /\ failed_chunks st'
         = failed_chunks st
           + count_where raised (chunk_results http_get chunks (upstream w))
      /\ exists tr,
           trace w' = trace w ++ tr
           /\ Forall (fun c : chunk => c.2 - c.1 + 1 <= 7 -> EvRequest c.1 c.2 ∈ tr) chunks.
Proof.
  induction chunks as [|[from_dt to_dt] chunks IH]; intros k st [n tr].
  - exists st, (World n tr). simpl. rewrite !app_nil_r, !Z.add_0_r.
    repeat split. exists []. by rewrite app_nil_r.
  - simpl. rewrite (fetch_single_chunk_framed from_dt to_dt n tr).
    destruct (retrying_trace 2%nat from_dt to_dt 1 (World n [])) as (tr1 & Htr1 & Hreq).
    fold (fetch_single_chunk http_get from_dt to_dt) in Htr1.
    destruct (fetch_single_chunk http_get from_dt to_dt (World n [])) as [r [n1 tr1']].
    simpl in Htr1. subst tr1'. simpl.
    rewrite !count_where_cons.
    assert (forall s1 (w1 : @world net),
              upstream w1 = n1 ->
              (exists pad, trace w1 = (tr ++ tr1) ++ pad) ->
              all_data s1 = all_data st ++ records_of r ->
              successful_chunks s1
              = successful_chunks st + (if delivered r then 1 else 0) ->
              failed_chunks s1 = failed_chunks st + (if raised r then 1 else 0) ->
              exists st' w',
                foldl (process_chunk http_get expected) (s1, w1) (enumerate (k + 1) chunks)
                = (st', w')
                /\ all_data st'
                   = all_data st ++ records_of r
                     ++ concat (records_of <$> chunk_results http_get chunks n1)
                /\ successful_chunks st'
                   = successful_chunks st
                     + ((if delivered r then 1 else 0)
                        + count_where delivered (chunk_results http_get chunks n1))
                /\ failed_chunks st'
                   = failed_chunks st
                     + ((if raised r then 1 else 0)
                        + count_where raised (chunk_results http_get chunks n1))
                /\ exists tr0,
                     trace w' = tr ++ tr0
                     /\ Forall (fun c : chunk =>
                                  c.2 - c.1 + 1 <= 7 -> EvRequest c.1 c.2 ∈ tr0)
                          ((from_dt, to_dt) :: chunks)) as Hstep.
    { intros s1 w1 Hup (pad & Hpad) Hd Ho Hf.
      destruct (IH (k + 1) s1 w1)
        as (st' & w' & Hrun & Hdata & Hok & Hfail & tr' & Htr' & Hall).
      rewrite Hup in *. exists st', w'. split; [exact Hrun|].
      split; [by rewrite Hdata, Hd, <- app_assoc|].
      split; [lia|]. split; [lia|].
      exists (tr1 ++ pad ++ tr').
      split; [rewrite Htr', Hpad; by rewrite <- !app_assoc|].
      constructor.
      - simpl. intros Hs. apply elem_of_app. left. by apply Hreq.
      - eapply Forall_impl; [exact Hall|]. simpl. intros c Hc Hs.
        rewrite !elem_of_app. right. right. by apply Hc. }
    destruct r as [[|x data]|e]; [destruct (k <? expected) ..|];
      apply Hstep; simpl; try reflexivity; try lia;
      try (by rewrite app_nil_r);
      try (exists [EvSleep RATE_LIMIT_DELAY]; reflexivity);
      try (exists []; by rewrite app_nil_r).
Qed.

(** ** The orchestrator *)

(** A run on a well-formed range: the planner tiles the range, every
    chunk is fetched, the records of the fetches that returned are
    returned in planned order, and the two counts go to the log. *)
Lemma fetch_generation_data_run start_date end_date start end_ (w : @world net) :
  strptime start_date = Some start ->
  strptime end_date = Some end_ ->
  start <= end_ ->
  exists chunks w',
    date_chunks start end_ MAX_CHUNK_DAYS = Some chunks
    /\ tiles MAX_CHUNK_DAYS start end_ chunks
    /\ fetch_generation_data http_get strptime start_date end_date w
       = Some (Ok (concat (records_of <$> chunk_results http_get chunks (upstream w))), w')
    /\ exists tr,
         trace w'
         = trace w ++ tr
           ++ [EvSummary (count_where delivered (chunk_results http_get chunks (upstream w)))
                         (count_where raised (chunk_results http_get chunks (upstream w)))]
         /\ Forall (fun c : chunk => EvRequest c.1 c.2 ∈ tr) chunks.
Proof.
  intros Hs He Hle. unfold fetch_generation_data. rewrite Hs, He.
  destruct (Z.gtb_spec start end_); [lia|].
  destruct (date_chunks_tiles start end_ MAX_CHUNK_DAYS)
    as (chunks & Hplan & Htiles); [reflexivity | lia |].
  rewrite Hplan. simpl.
  destruct (fetch_loop ((end_ - start + 1 + MAX_CHUNK_DAYS - 1) / MAX_CHUNK_DAYS)
              chunks 1 (FetchState [] 0 0) w)
    as (st' & w' & Hrun & Hdata & Hok & Hfail & tr & Htr & Hall).
  rewrite Hrun. simpl in *.
  exists chunks, (emit (EvSummary (successful_chunks st') (failed_chunks st')) w').
  split; [reflexivity|]. split; [exact Htiles|].
  split; [by rewrite Hdata|].
  exists tr. split.
  - unfold emit. simpl. rewrite Htr, Hok, Hfail. by rewrite <- app_assoc.
  - pose proof (tiles_bounds _ _ _ _ Htiles) as Hb.
    rewrite Forall_forall in Hb, Hall |- *.
    intros c Hc. apply (Hall c Hc). specialize (Hb c Hc).
    unfold MAX_CHUNK_DAYS in Hb. lia.
Qed.



(** [C7, amended] When the start date lies after the end date the
    planner raises nothing: it yields no chunk, whatever the chunk size.
    The range error is raised by the orchestrator, which rejects the
    range before it plans or fetches: the world is unchanged. *)
Theorem reversed_range_rejected_by_orchestrator
    start_date end_date start end_ days (w : @world net) :
  strptime start_date = Some start ->
  strptime end_date = Some end_ ->
  end_ < start ->
  date_chunks start end_ days = Some []
  /\ fetch_generation_data http_get strptime start_date end_date w
     = Some (Raise (ValueError_start_after_end start_date end_date), w).
Proof.
  intros Hs He Hlt. split.
  - apply date_chunks_loop_past. exact Hlt.
  - unfold fetch_generation_data. rewrite Hs, He.
    destruct (Z.gtb_spec start end_); [reflexivity | lia].
Qed.

End Upstream.

(** [C7] The planner on a reversed range (2024-01-14 to 2024-01-01):
    an empty sequence of chunks, not an error. *)
Lemma date_chunks_reversed_range_is_empty :
  date_chunks 738899 738886 MAX_CHUNK_DAYS = Some [].
Proof. reflexivity. Qed.

Lemma reversed_range_rejected_witness :
  date_chunks 738899 738886 6 = Some []
  /\ fetch_generation_data (always (RespData [])) example_strptime
       "2024-01-14" "2024-01-01" (World () [])
     = Some (Raise (ValueError_start_after_end "2024-01-14" "2024-01-01"), World () []).
Proof.
  apply (reversed_range_rejected_by_orchestrator (always (RespData [])) example_strptime
           "2024-01-14" "2024-01-01" 738899 738886 6 (World () []));
    [reflexivity | reflexivity | lia].
Defined.




End FetcherFacts.

(* ===================================================================== *)
(** * The field normalizer *)
(* ===================================================================== *)

Module NormalizerFacts.
Import Preprocessing Spec.

Lemma fill_field_fst record processed stats field :
  (fill_field record (processed, stats) field).1
  = <[field := dict_get record field]> processed.
Proof.
  unfold fill_field, dict_get.
  destruct (record !! field) as [[]|]; reflexivity.
Qed.

(** After the loop over [fields] each of them is bound, to the record's
    value or to [None]; nothing else is touched. *)
Lemma fill_fields_lookup record fields :
  forall processed stats field,
    (foldl (fill_field record) (processed, stats) fields).1 !! field
    = if bool_decide (field ∈ fields) then Some (dict_get record field)
      else processed !! field.
Proof.
  induction fields as [|f fields IH]; intros processed stats field; cbn [foldl].
  - reflexivity.
  - pose proof (fill_field_fst record processed stats f) as Hf.
    destruct (fill_field record (processed, stats) f) as [processed' stats'].
    simpl in Hf. subst processed'. rewrite IH.
    destruct (decide (field ∈ fields)) as [Hin | Hout].
    + rewrite !bool_decide_eq_true_2; [reflexivity | by right | exact Hin].
    + rewrite (bool_decide_eq_false_2 _ Hout).
      destruct (decide (field = f)) as [-> | Hne].
      * rewrite bool_decide_eq_true_2 by left. apply lookup_insert_eq.
      * rewrite bool_decide_eq_false_2
          by (intros [?|?]%elem_of_cons; contradiction).
        by apply lookup_insert_ne.
Qed.

(** The loop over the items of the record copies the fields that are not
    expected and leaves the expected ones as they are. *)
Lemma copy_extras_lookup record processed field :
  copy_extras record processed !! field
  = if bool_decide (field ∈ expected_fields) then processed !! field
    else match record !! field with
         | Some v => Some v
         | None => processed !! field
         end.
Proof.
  unfold copy_extras.
  apply (map_fold_weak_ind
           (fun acc (m : gmap string value) =>
              acc !! field
              = if bool_decide (field ∈ expected_fields) then processed !! field
                else match m !! field with
                     | Some v => Some v
                     | None => processed !! field
                     end)).
  - rewrite lookup_empty. by destruct (bool_decide _).
  - intros i x m acc Hfresh IH.
    destruct (decide (i ∈ expected_fields)) as [Hexp | Hextra].
    + rewrite (bool_decide_eq_true_2 _ Hexp), IH.
      destruct (decide (field ∈ expected_fields)) as [Hin | Hout].
      * by rewrite (bool_decide_eq_true_2 _ Hin).
      * rewrite (bool_decide_eq_false_2 _ Hout).
        rewrite lookup_insert_ne by (intros ->; contradiction). reflexivity.
    + rewrite (bool_decide_eq_false_2 _ Hextra).
      destruct (decide (i = field)) as [-> | Hne].
      * rewrite (bool_decide_eq_false_2 _ Hextra), !lookup_insert_eq. reflexivity.
      * rewrite !lookup_insert_ne by exact Hne. exact IH.
Qed.

Lemma normalize_record_spec processed_data stats record :
  exists processed stats',
    normalize_record (processed_data, stats) record
    = (processed_data ++ [processed], stats')
    /\ normalizes_to record processed.
Proof.
  unfold normalize_record.
  pose proof (fill_fields_lookup record expected_fields ∅ stats) as Hfill.
  destruct (foldl (fill_field record) (∅, stats) expected_fields)
    as [filled stats'].
  simpl in Hfill. eexists _, _. split; [reflexivity|]. split.
  - intros field Hin. rewrite copy_extras_lookup, Hfill.
    by rewrite !(bool_decide_eq_true_2 _ Hin).
  - intros field Hout. rewrite copy_extras_lookup, Hfill.
    rewrite !(bool_decide_eq_false_2 _ Hout), lookup_empty.
    by destruct (record !! field).
Qed.

Lemma normalize_loop data :
  forall processed_data stats,
    exists out stats',
      foldl normalize_record (processed_data, stats) data
      = (processed_data ++ out, stats')
      /\ Forall2 normalizes_to data out.
Proof.
  induction data as [|record data IH]; intros processed_data stats; cbn [foldl].
  - exists [], stats. rewrite app_nil_r. split; [reflexivity | constructor].
  - destruct (normalize_record_spec processed_data stats record)
      as (processed & stats1 & -> & Hrec).
    destruct (IH (processed_data ++ [processed]) stats1)
      as (out & stats' & -> & Hout).
    exists (processed :: out), stats'. rewrite <- app_assoc.
    split; [reflexivity | by constructor].
Qed.

(** [C6] The normalizer returns one record for each input record, in
    order.  Each of the nine expected fields is bound in it: to the
    input's value, or to [None] when the input has no such field or has
    it bound to [None].  Every field of the input outside the expected
    nine is bound in it to the same value, and it has no other field.
    An empty input gives an empty output. *)
Theorem handle_missing_fields_schema (data : list (gmap string value)) :
  length expected_fields = 9%nat
  /\ NoDup expected_fields
  /\ handle_missing_fields [] = []
  /\ Forall2 (fun record processed =>
               (forall field, field ∈ expected_fields ->
                              processed !! field = Some (dict_get record field))
               /\ (forall field, field ∉ expected_fields ->
                                 processed !! field = record !! field))
            data (handle_missing_fields data).
Proof.
  split; [reflexivity|]. split; [compute_done|].
  split; [reflexivity|].
  unfold handle_missing_fields, handle_missing_fields_run.
  destruct data as [|record data]; [constructor|].
  destruct (normalize_loop (record :: data) [] ∅) as (out & stats & -> & Hout).
  exact Hout.
Qed.

End NormalizerFacts.

(* ===================================================================== *)
(** * The processed-data quality gate *)
(* ===================================================================== *)

Module QualityFacts.
Import Preprocessing Spec PyFacts.
#[local] Set Warnings "-inexact-float".






Section Mean.
Context (py_mean : list value -> result float).


End Mean.


End QualityFacts.

(* ===================================================================== *)
(** * The deduplicator *)
(* ===================================================================== *)

Module DeduplicatorFacts.
Import Preprocessing Spec PyFacts.

Lemma py_lt_none_l v : py_lt VNone v = Raise TypeError.
Proof. reflexivity. Qed.

Lemma py_lt_none_r v : py_lt v VNone = Raise TypeError.
Proof. by destruct v. Qed.

(** Two records of one group, one of them with a null sort key: the
    sort compares the two keys and raises. *)
Lemma deduplicate_pair_null_key x y :
  key_eq (natural_key x) (natural_key y) ->
  publish_key x = VNone \/ publish_key y = VNone ->
  deduplicate_data [x; y] = Raise TypeError.
Proof.
  intros Hkey Hnull. unfold deduplicate_data, group_records.
  cbn [foldl group_append]. apply Is_true_true in Hkey. rewrite Hkey.
  cbn [app survivors]. unfold survivor. cbn [length Z.of_nat].
  change (1 <? Z.pos (Pos.of_succ_nat 1)) with true.
  cbn [py_sort sort_insert mbind result_bind].
  destruct Hnull as [-> | ->]; [rewrite py_lt_none_l | rewrite py_lt_none_r];
    reflexivity.
Qed.

Lemma publish_key_absent x :
  x !! "publishTime" = None -> publish_key x = VStr "".
Proof. intros H. unfold publish_key, dict_get_default. by rewrite H. Qed.

Lemma publish_key_present x v :
  x !! "publishTime" = Some v -> publish_key x = v.
Proof. intros H. unfold publish_key, dict_get_default. by rewrite H. Qed.

(** ** Natural keys *)

Lemma key_eq_refl k : key_eq k k = true.
Proof. unfold key_eq. by rewrite !py_eq_refl. Qed.

Lemma key_eq_sym k1 k2 : key_eq k1 k2 = key_eq k2 k1.
Proof.
  unfold key_eq.
  by rewrite (py_eq_sym k1.1.1), (py_eq_sym k1.1.2), (py_eq_sym k1.2).
Qed.

Lemma key_eq_trans k1 k2 k3 :
  key_eq k1 k2 = true -> key_eq k2 k3 = true -> key_eq k1 k3 = true.
Proof.
  unfold key_eq. rewrite !andb_true_iff.
  intros [[H1 H2] H3] [[H1' H2'] H3'].
  repeat split; eapply py_eq_trans; eassumption.
Qed.

Lemma key_eq_false_l k1 k2 k3 :
  key_eq k1 k2 = false -> key_eq k1 k3 = true -> key_eq k2 k3 = false.
Proof.
  intros Hne Heq. destruct (key_eq k2 k3) eqn:E; [|reflexivity].
  rewrite (key_eq_trans k1 k3 k2) in Hne; [discriminate | exact Heq |].
  by rewrite key_eq_sym.
Qed.

(** ** Grouping *)

Lemma filter_none {A} (p : A -> bool) l :
  (forall x, x ∈ l -> p x = false) -> List.filter p l = [].
Proof.
  induction l as [|x l IH]; intros Hall; simpl; [reflexivity|].
  rewrite (Hall x) by left. apply IH. intros y Hy. apply Hall. by right.
Qed.

Lemma members_snoc key data record :
  members key (data ++ [record])
  = members key data ++ (if key_eq key (natural_key record) then [record] else []).
Proof.
  unfold members. rewrite List.filter_app. simpl.
  by destruct (key_eq key (natural_key record)).
Qed.

Lemma elem_of_members key data record :
  record ∈ members key data <-> record ∈ data /\ key_eq key (natural_key record) = true.
Proof. unfold members. rewrite !list_elem_of_In. apply List.filter_In. Qed.

(** Appending to the groups of pairwise different keys: the one group
    with the record's key takes it, or a new group is opened at the
    end. *)
Lemma group_append_map keys (f : value * value * value -> list (gmap string value))
    key record :
  StronglySorted (fun a b => key_eq a b = false) keys ->
  group_append ((fun k => (k, f k)) <$> keys) key record
  = ((fun k => (k, if key_eq k key then f k ++ [record] else f k)) <$> keys)
    ++ (if existsb (fun k => key_eq k key) keys then [] else [(key, [record])]).
Proof.
  induction 1 as [|k keys Hsorted IH Hk]; [reflexivity|].
  rewrite !fmap_cons. cbn [group_append existsb].
  destruct (key_eq k key) eqn:E; cbn [orb].
  - rewrite app_nil_r. f_equal. apply list_fmap_ext. intros i k' Hk'.
    rewrite Forall_forall in Hk.
    rewrite (key_eq_false_l k k' key); [reflexivity | | exact E].
    apply Hk. eapply list_elem_of_lookup_2. exact Hk'.
  - rewrite IH. reflexivity.
Qed.

(** The groups in closed form: one group for each natural key, in the
    order the keys first occur, holding the records with that key in
    input order. *)
Lemma group_records_closed data :
  group_records data = (fun k => (k, members k data)) <$> first_keys data
  /\ StronglySorted (fun a b => key_eq a b = false) (first_keys data)
  /\ (forall record, record ∈ data ->
                     existsb (fun k => key_eq k (natural_key record)) (first_keys data) = true)
  /\ (forall k, k ∈ first_keys data -> exists record, record ∈ data /\ k = natural_key record)
  /\ (length (first_keys data) <= length data)%nat.
Proof.
  induction data as [|record data (Hgroups & Hsorted & Hcover & Hfrom & Hlen)] using rev_ind.
  - repeat split; try constructor; intros x Hx; inversion Hx.
  - unfold group_records, first_keys in *. rewrite !foldl_snoc.
    fold (first_keys data) in *. fold (group_records data) in *.
    rewrite Hgroups, (group_append_map _ _ _ _ Hsorted).
    destruct (existsb (fun k => key_eq k (natural_key record)) (first_keys data)) eqn:E.
    + split; [|split; [exact Hsorted|split; [|split]]].
      * rewrite app_nil_r. apply list_fmap_ext. intros i k _.
        rewrite members_snoc.
        destruct (key_eq k (natural_key record)); [reflexivity | by rewrite app_nil_r].
      * intros r [Hr | ->%list_elem_of_singleton]%elem_of_app; auto.
      * intros k Hk. destruct (Hfrom k Hk) as (r & Hr & ->).
        exists r. split; [apply elem_of_app; by left | reflexivity].
      * rewrite length_app. simpl. lia.
    + assert (forall k, k ∈ first_keys data -> key_eq k (natural_key record) = false)
        as Hnew.
      { intros k Hk. destruct (key_eq k (natural_key record)) eqn:Ek; [|reflexivity].
        rewrite <- E. symmetry. apply existsb_exists. exists k.
        split; [by apply list_elem_of_In | exact Ek]. }
      split; [|split; [|split; [|split]]].
      * rewrite fmap_app. f_equal.
        -- apply list_fmap_ext. intros i k _. rewrite members_snoc.
           destruct (key_eq k (natural_key record)); [reflexivity | by rewrite app_nil_r].
        -- simpl. rewrite members_snoc, key_eq_refl.
           unfold members. rewrite filter_none; [reflexivity|].
           intros r Hr. destruct (key_eq (natural_key record) (natural_key r)) eqn:Er;
             [|reflexivity].
           specialize (Hcover r Hr). apply existsb_exists in Hcover as (k & Hk & Hkr).
           assert (key_eq k (natural_key record) = true) as Hyes
             by (apply key_eq_trans with (natural_key r);
                 [exact Hkr | by rewrite key_eq_sym]).
           rewrite Hnew in Hyes by (by apply list_elem_of_In). discriminate.
      * apply StronglySorted_app_2; [|exact Hsorted|repeat constructor].
        intros k1 k2 Hk1 ->%list_elem_of_singleton. by apply Hnew.
      * intros r [Hr | ->%list_elem_of_singleton]%elem_of_app.
        -- rewrite existsb_app, (Hcover r Hr). reflexivity.
        -- rewrite existsb_app. simpl. by rewrite key_eq_refl, orb_true_r.
      * intros k [Hk | ->%list_elem_of_singleton]%elem_of_app.
        -- destruct (Hfrom k Hk) as (r & Hr & ->).
           exists r. split; [apply elem_of_app; by left | reflexivity].
        -- exists record. split; [apply elem_of_app; right; by left | reflexivity].
      * rewrite !length_app. simpl. lia.
Qed.

(** ** Survivors *)

(** The survivor of a group of records published at text times: a
    record of the group that none of them was published after. *)
Lemma survivor_spec records :
  records <> [] ->
  Forall (fun r => is_text (publish_key r)) records ->
  exists o,
    survivor records = Ok o
    /\ o ∈ records
    /\ forall r, r ∈ records -> py_lt (publish_key o) (publish_key r) = Ok false.
Proof.
  intros Hne Htext. unfold survivor.
  destruct records as [|a [|b records]]; [done| |].
  - exists a. split; [reflexivity|]. split; [left|].
    intros r ->%list_elem_of_singleton.
    apply (ordered_irrefl is_text _ text_ordered). by inversion Htext.
  - replace (1 <? Z.of_nat (length (a :: b :: records))) with true
      by (symmetry; apply Z.ltb_lt; simpl; lia).
    destruct (py_sort_total publish_key true is_text _ text_comparable Htext)
      as (sorted & Hsort & Hperm).
    pose proof (py_sort_sorted publish_key true is_text text_ordered _ Htext _ Hsort)
      as Hsorted.
    rewrite Hsort. cbn [mbind result_bind].
    destruct sorted as [|o sorted].
    { apply Permutation_nil in Hperm. discriminate. }
    exists o. split; [reflexivity|].
    split; [rewrite <- Hperm; left|].
    intros r Hr. rewrite <- Hperm in Hr.
    apply StronglySorted_cons in Hsorted as [Hhead _].
    apply elem_of_cons in Hr as [-> | Hr].
    + apply (ordered_irrefl is_text _ text_ordered).
      rewrite Forall_forall in Htext. apply Htext. rewrite <- Hperm. left.
    + rewrite Forall_forall in Hhead. exact (Hhead r Hr).
Qed.

Lemma survivors_spec groups :
  Forall (fun g : value * value * value * list (gmap string value) =>
            g.2 <> [] /\ Forall (fun r => is_text (publish_key r)) g.2) groups ->
  exists out,
    survivors groups = Ok out
    /\ Forall2 (fun (g : value * value * value * list (gmap string value)) o =>
                  o ∈ g.2
                  /\ forall r, r ∈ g.2 -> py_lt (publish_key o) (publish_key r) = Ok false)
               groups out.
Proof.
  induction 1 as [|[k records] groups [Hne Htext] Hgroups (out & Hout & Hall)]; simpl.
  - exists []. split; [reflexivity | constructor].
  - destruct (survivor_spec records Hne Htext) as (o & -> & Ho).
    rewrite Hout. cbn [mbind result_bind].
    exists (o :: out). split; [reflexivity | by constructor].
Qed.

Lemma sorted_lookup {A} (R : A -> A -> Prop) l :
  StronglySorted R l ->
  forall (i j : nat) a b, (i < j)%nat -> l !! i = Some a -> l !! j = Some b -> R a b.
Proof.
  induction 1 as [|x l Hsorted IH Hx]; intros i j a b Hij Hi Hj; [discriminate|].
  destruct j as [|j]; [lia|]. destruct i as [|i]; simpl in *.
  - injection Hi as <-. rewrite Forall_forall in Hx. apply Hx.
    eapply list_elem_of_lookup_2. exact Hj.
  - apply (IH i j); [lia | exact Hi | exact Hj].
Qed.

(** [X1] On records published at text times or with no [publishTime] at
    all, the deduplicator returns one record for each natural key of the
    input, in the order the keys first occur: the returned records are
    records of the input, no two of them share a natural key, every
    record of the input shares its natural key with one of them, and no
    record of the input with the same natural key was published after
    the one returned. *)
Theorem deduplicate_data_text_publish_times (data : list (gmap string value)) :
  Forall (fun r => is_text (publish_key r)) data ->
  exists out,
    deduplicate_data data = Ok out
    /\ (length out <= length data)%nat
    /\ Forall2 (fun k o => key_eq k (natural_key o) = true) (first_keys data) out
    /\ (forall o, o ∈ out -> o ∈ data)
    /\ (forall r, r ∈ data -> exists o, o ∈ out /\ same_key o r = true)
    /\ (forall (i j : nat) a b,
          i <> j -> out !! i = Some a -> out !! j = Some b -> same_key a b = false)
    /\ (forall o r, o ∈ out -> r ∈ data -> same_key o r = true ->
                    py_lt (publish_key o) (publish_key r) = Ok false).
Proof.
  intros Htext.
  destruct (group_records_closed data) as (Hgroups & Hsorted & Hcover & Hfrom & Hlen).
  destruct (survivors_spec (group_records data)) as (out & Hout & Hall).
  { rewrite Hgroups. apply Forall_fmap, Forall_forall. intros k Hk. simpl. split.
    - destruct (Hfrom k Hk) as (r & Hr & ->). intros Hnil.
      assert (r ∈ members (natural_key r) data) as Hin
        by (apply elem_of_members; split; [exact Hr | apply key_eq_refl]).
      rewrite Hnil in Hin. inversion Hin.
    - apply Forall_forall. intros r [Hr _]%elem_of_members.
      rewrite Forall_forall in Htext. by apply Htext. }
  rewrite Hgroups in Hall. apply Forall2_fmap_l in Hall. simpl in Hall.
  assert (forall k o, k ∈ first_keys data -> o ∈ members k data ->
                      key_eq k (natural_key o) = true) as Hmember
    by (intros k o _ [_ H]%elem_of_members; exact H).
  exists out. split.
  { unfold deduplicate_data. destruct data; [|exact Hout].
    simpl in Hout. by injection Hout as <-. }
  split; [rewrite <- (Forall2_length _ _ _ Hall); exact Hlen|].
  split.
  { eapply Forall2_impl; [exact Hall|]. simpl.
    intros k o [[_ H]%elem_of_members _]. exact H. }
  split.
  { intros o (i & Hi)%list_elem_of_lookup_1.
    destruct (Forall2_lookup_r _ _ _ _ _ Hall Hi) as (k & _ & [Hin _]%proj1%elem_of_members).
    exact Hin. }
  split.
  { intros r Hr. specialize (Hcover r Hr).
    apply existsb_exists in Hcover as (k & (i & Hi)%list_elem_of_In%list_elem_of_lookup_1 & Hkr).
    destruct (Forall2_lookup_l _ _ _ _ _ Hall Hi) as (o & Ho & [[_ Hko]%elem_of_members _]).
    exists o. split; [eapply list_elem_of_lookup_2; exact Ho|].
    unfold same_key. apply key_eq_trans with k; [by rewrite key_eq_sym | exact Hkr]. }
  split.
  { intros i j a b Hij Ha Hb.
    destruct (Forall2_lookup_r _ _ _ _ _ Hall Ha) as (ka & Hka & [[_ Haa]%elem_of_members _]).
    destruct (Forall2_lookup_r _ _ _ _ _ Hall Hb) as (kb & Hkb & [[_ Hbb]%elem_of_members _]).
    assert (key_eq ka kb = false) as Hdiff.
    { destruct (Nat.lt_total i j) as [Hlt | [-> | Hgt]]; [| done |].
      - exact (sorted_lookup _ _ Hsorted i j ka kb Hlt Hka Hkb).
      - rewrite key_eq_sym. exact (sorted_lookup _ _ Hsorted j i kb ka Hgt Hkb Hka). }
    unfold same_key. destruct (key_eq (natural_key a) (natural_key b)) eqn:E; [|reflexivity].
    rewrite <- Hdiff. symmetry.
    apply key_eq_trans with (natural_key a); [exact Haa|].
    apply key_eq_trans with (natural_key b); [exact E | by rewrite key_eq_sym]. }
  intros o r (i & Hi)%list_elem_of_lookup_1 Hr Hsame.
  destruct (Forall2_lookup_r _ _ _ _ _ Hall Hi) as (k & _ & [[_ Hko]%elem_of_members Hmax]).
  apply Hmax. apply elem_of_members. split; [exact Hr|].
  apply key_eq_trans with (natural_key o); [exact Hko | exact Hsame].
Qed.

(** ** When the deduplicator raises *)

Lemma survivor_outcome records :
  records <> [] ->
  (mixed records = true -> survivor records = Raise TypeError)
  /\ (mixed records = false -> exists o, survivor records = Ok o).
Proof.
  intros Hne. unfold survivor, mixed.
  destruct (1 <? Z.of_nat (length records)) eqn:Hlen; cbn [andb].
  - apply Z.ltb_lt in Hlen.
    destruct (homogeneous publish_key records) eqn:Hhom; cbn [negb];
      split; try discriminate.
    + intros _. destruct (py_sort publish_key true records) as [sorted|e] eqn:Hsort.
      * pose proof (py_sort_perm _ _ _ _ Hsort) as Hperm.
        destruct sorted as [|o sorted]; [|simpl; eauto].
        apply Permutation_nil in Hperm. contradiction.
      * rewrite (py_sort_raise _ _ _ _ Hsort) in Hsort.
        apply py_sort_raises_iff in Hsort as [_ Hfalse]. congruence.
    + intros _.
      rewrite (proj2 (py_sort_raises_iff publish_key true records));
        [reflexivity|]. split; [lia | exact Hhom].
  - split; [discriminate|]. intros _. destruct records; [done|]. simpl. eauto.
Qed.

Lemma survivors_outcome groups :
  Forall (fun g : value * value * value * list (gmap string value) => g.2 <> []) groups ->
  (existsb (fun g => mixed g.2) groups = true -> survivors groups = Raise TypeError)
  /\ (existsb (fun g => mixed g.2) groups = false -> exists out, survivors groups = Ok out).
Proof.
  induction 1 as [|[k records] groups Hne Hgroups [IHraise IHok]]; cbn [existsb survivors].
  - split; [discriminate | eauto].
  - destruct (survivor_outcome records Hne) as [Hraise Hok]. cbn [snd] in *.
    destruct (mixed records); cbn [orb].
    + split; [|discriminate]. intros _. by rewrite Hraise.
    + destruct (Hok eq_refl) as [o ->]. cbn [mbind result_bind]. split.
      * intros Hrest. by rewrite (IHraise Hrest).
      * intros Hrest. destruct (IHok Hrest) as [out ->]. simpl. eauto.
Qed.

(** [X2] The deduplicator raises exactly when some natural key has two
    records or more whose [publishTime] sort keys are not all text or
    all numbers (a key bound to [None] is neither), and what it raises
    is [TypeError]; on every other input it returns a list. *)
Theorem deduplicate_data_raises_iff (data : list (gmap string value)) :
  (existsb (fun k => mixed (members k data)) (first_keys data) = true ->
   deduplicate_data data = Raise TypeError)
  /\ (existsb (fun k => mixed (members k data)) (first_keys data) = false ->
      exists out, deduplicate_data data = Ok out).
Proof.
  destruct (group_records_closed data) as (Hgroups & _ & _ & Hfrom & _).
  destruct (survivors_outcome (group_records data)) as [Hraise Hok].
  { rewrite Hgroups. apply Forall_fmap, Forall_forall. intros k Hk. simpl.
    destruct (Hfrom k Hk) as (r & Hr & ->). intros Hnil.
    assert (r ∈ members (natural_key r) data) as Hin
      by (apply elem_of_members; split; [exact Hr | apply key_eq_refl]).
    rewrite Hnil in Hin. inversion Hin. }
  assert (existsb (fun g : value * value * value * list (gmap string value) => mixed g.2)
            (group_records data)
          = existsb (fun k => mixed (members k data)) (first_keys data)) as Heq.
  { rewrite Hgroups. generalize (first_keys data). intros keys.
    induction keys as [|k keys IH]; [reflexivity|].
    rewrite fmap_cons. cbn [existsb snd]. by rewrite IH. }
  rewrite Heq in Hraise, Hok.
  unfold deduplicate_data. destruct data as [|record data]; [|by split].
  split; [discriminate | eauto].
Qed.

Lemma deduplicate_data_text_publish_times_witness :
  exists out,
    deduplicate_data
      [solar 1 (201 # 2) (VStr "2024-01-01T00:00:00Z");
       <["psrType" := VStr "Wind Onshore"]> (solar 1 (200 # 1) (VStr "2024-01-01T00:00:00Z"));
       solar 1 (110 # 1) (VStr "2024-01-01T01:00:00Z")]
    = Ok out
    /\ (length out <= 3)%nat.
Proof.
  destruct (deduplicate_data_text_publish_times
              [solar 1 (201 # 2) (VStr "2024-01-01T00:00:00Z");
               <["psrType" := VStr "Wind Onshore"]>
                 (solar 1 (200 # 1) (VStr "2024-01-01T00:00:00Z"));
               solar 1 (110 # 1) (VStr "2024-01-01T01:00:00Z")])
    as (out & Hrun & Hlen & _).
  - repeat constructor.
  - exists out. split; [exact Hrun | exact Hlen].
Defined.

(** [C10] The sort key of a record without a [publishTime] is the empty
    string, and that of a record whose [publishTime] is bound to [None]
    is [None].  So deduplicating two records that share a natural key
    raises [TypeError] as soon as one of them has a null [publishTime]:
    for instance a Solar record of period 1 published at [None] and one
    published at "2024-01-01T00:00:00Z". *)
Theorem null_publish_time_raises_type_error :
  (forall x, x !! "publishTime" = None -> publish_key x = VStr "")
  /\ (forall x, x !! "publishTime" = Some VNone -> publish_key x = VNone)
  /\ (forall x y,
        key_eq (natural_key x) (natural_key y) ->
        x !! "publishTime" = Some VNone \/ y !! "publishTime" = Some VNone ->
        deduplicate_data [x; y] = Raise TypeError)
  /\ natural_key (solar 1 (201 # 2) VNone)
     = natural_key (solar 1 (105 # 1) (VStr "2024-01-01T00:00:00Z"))
  /\ solar 1 (201 # 2) VNone !! "publishTime" = Some VNone
  /\ solar 1 (105 # 1) (VStr "2024-01-01T00:00:00Z") !! "publishTime"
     = Some (VStr "2024-01-01T00:00:00Z")
  /\ deduplicate_data [solar 1 (201 # 2) VNone;
                       solar 1 (105 # 1) (VStr "2024-01-01T00:00:00Z")]
     = Raise TypeError.
Proof.
  split; [exact publish_key_absent|].
  split; [intros x; apply publish_key_present|].
  split.
  - intros x y Hkey [Hx | Hy]; apply deduplicate_pair_null_key; try exact Hkey;
      [left | right]; by apply publish_key_present.
  - repeat split; vm_compute; reflexivity.
Qed.

(** [C1] The deduplicator on two records that share a natural key, the
    later one with a null [publishTime] as the fetcher produces it when
    the upstream record has none: no survivor, a [TypeError]. *)
Theorem deduplicate_data_null_publish_time :
  deduplicate_data
    [solar 1 (201 # 2) (VStr "2024-01-01T00:00:00Z"); solar 1 (105 # 1) VNone]
  = Raise TypeError.
Proof.
  apply deduplicate_pair_null_key; [vm_compute; exact I | right; reflexivity].
Qed.

(** The two records of the specification's example: the later
    publication survives. *)
Lemma deduplicate_data_later_survives :
  deduplicate_data
    [solar 1 (201 # 2) (VStr "2024-01-01T00:00:00Z");
     solar 1 (105 # 1) (VStr "2024-01-01T01:00:00Z")]
  = Ok [solar 1 (105 # 1) (VStr "2024-01-01T01:00:00Z")].
Proof. vm_compute. reflexivity. Qed.

End DeduplicatorFacts.

(* ===================================================================== *)
(** * Empty input *)
(* ===================================================================== *)

Module EmptyInputFacts.
Import Fetcher Preprocessing Spec FetcherFacts.

(** [C9] A chunk fetch whose request is answered with a payload of no
    records returns the empty list after that one request; the
    deduplicator maps the empty list to the empty list without raising;
    the processed-data gate answers the empty list with the error status
    and the message "No data to validate", and no report. *)
Theorem empty_input_by_stage {net : Type}
    (http_get : net -> Z -> Z -> response * net)
    (py_mean : list value -> result float)
    (from_dt to_dt : Z) (w : @world net) (n : net) :
  to_dt - from_dt + 1 <= 7 ->
  http_get (upstream w) from_dt to_dt = (RespData [], n) ->
  fetch_single_chunk http_get from_dt to_dt w
  = (Ok [], World n (trace w ++ [EvRequest from_dt to_dt]))
  /\ deduplicate_data [] = Ok []
  /\ validate_processed_data py_mean [] = Ok (StatusError "No data to validate").
Proof.
  intros Hshort Hresp. split; [|split; reflexivity].
  unfold fetch_single_chunk. cbn [retrying].
  destruct (body_requests http_get from_dt to_dt w Hshort) as (r & n' & -> & _ & Hdata).
  destruct (Hdata [] n Hresp) as [-> ->]. reflexivity.
Qed.

Lemma empty_input_by_stage_witness :
  fetch_single_chunk (always (RespData [])) 738886 738891 (World () [])
  = (Ok [], World () [EvRequest 738886 738891])
  /\ deduplicate_data [] = Ok []
  /\ validate_processed_data zero_mean [] = Ok (StatusError "No data to validate").
Proof.
  apply (empty_input_by_stage (always (RespData [])) zero_mean
           738886 738891 (World () []) ()); [lia | reflexivity].
Defined.

End EmptyInputFacts.

(* ===================================================================== *)
(** * Sets of values, least and greatest elements *)
(* ===================================================================== *)

Module SetFacts.
Import Preprocessing FetcherChecks Spec Vocabulary PyFacts.

Lemma set_mem_set_add v u s :
  set_mem v (set_add u s) = set_mem v s || py_eq u v.
Proof.
  unfold set_add, set_mem.
  destruct (existsb (fun w => py_eq w u) s) eqn:E.
  - destruct (py_eq u v) eqn:Euv; [|by rewrite orb_false_r].
    rewrite orb_true_r. apply existsb_exists.
    apply existsb_exists in E as (w & Hw & Hwu).
    exists w. split; [exact Hw | by apply py_eq_trans with u].
  - rewrite existsb_app. simpl. by rewrite orb_false_r.
Qed.

Lemma set_add_elem v u s : v ∈ set_add u s -> v ∈ s \/ v = u.
Proof.
  unfold set_add. destruct (existsb _ s); [by left|].
  intros [H | ->%list_elem_of_singleton]%elem_of_app; auto.
Qed.

Lemma set_add_distinct u s : distinct s -> distinct (set_add u s).
Proof.
  intros Hs. unfold set_add.
  destruct (existsb (fun w => py_eq w u) s) eqn:E; [exact Hs|].
  apply StronglySorted_app_2; [|exact Hs|repeat constructor].
  intros w u' Hw ->%list_elem_of_singleton.
  destruct (py_eq w u) eqn:Ew; [|reflexivity].
  rewrite <- E. symmetry. apply existsb_exists. exists w.
  split; [by apply list_elem_of_In | exact Ew].
Qed.

Lemma set_mem_elem v s : v ∈ s -> set_mem v s = true.
Proof.
  intros Hv. apply existsb_exists. exists v.
  split; [by apply list_elem_of_In | apply py_eq_refl].
Qed.

(** Adding the values [f x] for the [x] of a list, one after the other. *)
Lemma set_add_fold {A} (f : A -> value) l :
  forall s,
    (forall v, set_mem v (foldl (fun s x => set_add (f x) s) s l)
               = set_mem v s || existsb (fun x => py_eq (f x) v) l)
    /\ (forall v, v ∈ foldl (fun s x => set_add (f x) s) s l ->
                  v ∈ s \/ exists x, x ∈ l /\ v = f x)
    /\ (distinct s -> distinct (foldl (fun s x => set_add (f x) s) s l)).
Proof.
  induction l as [|x l IH]; intros s; cbn [foldl existsb].
  - split; [intros v; by rewrite orb_false_r|]. split; [by left | done].
  - destruct (IH (set_add (f x) s)) as (Hmem & Helem & Hdist).
    split; [|split].
    + intros v. by rewrite Hmem, set_mem_set_add, orb_assoc.
    + intros v [[Hv | ->]%set_add_elem | (y & Hy & ->)]%Helem; [by left | |].
      * right. exists x. split; [left | reflexivity].
      * right. exists y. split; [by right | reflexivity].
    + intros Hs. by apply Hdist, set_add_distinct.
Qed.

Section Extremes.
Context (P : value -> bool) (HP : ordered P).

(** [min] returns a member that no member is less than. *)
Lemma py_min_from_least l :
  forall m lo,
    P m -> Forall (fun y => P y) l -> py_min_from m l = Ok lo ->
    lo ∈ m :: l /\ forall x, x ∈ m :: l -> py_lt x lo = Ok false.
Proof.
  destruct HP as (Hcmp & Hasym & Htrans).
  induction l as [|x l IH]; intros m lo Hm Hl; simpl.
  - intros [= <-]. split; [left|].
    intros x ->%list_elem_of_singleton. by apply ordered_irrefl with P.
  - inversion Hl as [|? ? Hx Hl']; subst.
    destruct (Hcmp x m Hx Hm) as [b Hb]. rewrite Hb. simpl. intros Hrun.
    assert (P (if b then x else m)) as Hm' by (by destruct b).
    destruct (IH _ _ Hm' Hl' Hrun) as (Hin & Hleast).
    assert (P lo) as Hlo.
    { apply elem_of_cons in Hin as [-> | Hin]; [exact Hm'|].
      rewrite Forall_forall in Hl'. by apply Hl'. }
    split.
    + apply elem_of_cons in Hin as [-> | Hin]; [|by do 2 right].
      destruct b; [right; left | left].
    + intros y [-> | [-> | Hy]%elem_of_cons]%elem_of_cons.
      * destruct b; [|apply Hleast; left].
        apply Htrans with x; auto. apply Hleast. left.
      * destruct b; [apply Hleast; left|].
        apply Htrans with m; auto. apply Hleast. left.
      * apply Hleast. by right.
Qed.

(** [max] returns a member that is less than no member. *)
Lemma py_max_from_greatest l :
  forall m hi,
    P m -> Forall (fun y => P y) l -> py_max_from m l = Ok hi ->
    hi ∈ m :: l /\ forall x, x ∈ m :: l -> py_lt hi x = Ok false.
Proof.
  destruct HP as (Hcmp & Hasym & Htrans).
  induction l as [|x l IH]; intros m hi Hm Hl; simpl.
  - intros [= <-]. split; [left|].
    intros x ->%list_elem_of_singleton. by apply ordered_irrefl with P.
  - inversion Hl as [|? ? Hx Hl']; subst.
    destruct (Hcmp m x Hm Hx) as [b Hb]. rewrite Hb. simpl. intros Hrun.
    assert (P (if b then x else m)) as Hm' by (by destruct b).
    destruct (IH _ _ Hm' Hl' Hrun) as (Hin & Hmost).
    assert (P hi) as Hhi.
    { apply elem_of_cons in Hin as [-> | Hin]; [exact Hm'|].
      rewrite Forall_forall in Hl'. by apply Hl'. }
    split.
    + apply elem_of_cons in Hin as [-> | Hin]; [|by do 2 right].
      destruct b; [right; left | left].
    + intros y [-> | [-> | Hy]%elem_of_cons]%elem_of_cons.
      * destruct b; [|apply Hmost; left].
        apply Htrans with x; auto. apply Hmost. left.
      * destruct b; [apply Hmost; left|].
        apply Htrans with m; auto. apply Hmost. left.
      * apply Hmost. by right.
Qed.
End Extremes.

End SetFacts.

(* ===================================================================== *)
(** * The check on fetched data *)
(* ===================================================================== *)

Module FetchedQualityFacts.
Import Preprocessing Spec PyFacts FetcherChecks Vocabulary SetFacts.

Lemma note_missing_loop record fields :
  forall missing,
    foldl (note_missing record) missing fields
    = missing ++ List.filter (fun field => lacks field record) fields.
Proof.
  induction fields as [|f fields IH]; intros missing; cbn [foldl List.filter].
  - by rewrite app_nil_r.
  - rewrite IH. unfold note_missing, lacks, dict_get.
    destruct (record !! f) as [v|]; simpl; [destruct (is_none v)|];
      by rewrite <- ?app_assoc.
Qed.

Lemma elem_of_filter_bool {A} (p : A -> bool) l x :
  x ∈ List.filter p l <-> x ∈ l /\ p x = true.
Proof. rewrite !list_elem_of_In. apply List.filter_In. Qed.

Lemma sample_loop sample :
  forall missing field,
    field ∈ foldl (fun missing record =>
                     foldl (note_missing record) missing required_fields)
                  missing sample
    <-> field ∈ missing
        \/ (field ∈ required_fields
            /\ exists record, record ∈ sample /\ lacks field record = true).
Proof.
  induction sample as [|r sample IH]; intros missing field; cbn [foldl].
  - split; [by left|]. intros [H | (_ & r & Hr & _)]; [exact H | inversion Hr].
  - rewrite IH, note_missing_loop, elem_of_app, elem_of_filter_bool.
    split.
    + intros [[H | [Hf Hl]] | (Hf & r' & Hr' & Hl)]; [by left | right ..].
      * split; [exact Hf|]. exists r. split; [left | exact Hl].
      * split; [exact Hf|]. exists r'. split; [by right | exact Hl].
    + intros [H | (Hf & r' & [-> | Hr']%elem_of_cons & Hl)]; [by do 2 left | |].
      * left. right. by split.
      * right. split; [exact Hf|]. by exists r'.
Qed.

Lemma take_sample {A} (data : list A) :
  take (Z.to_nat (Z.min 100 (Z.of_nat (length data)))) data = take 100 data.
Proof.
  destruct (Z.le_gt_cases 100 (Z.of_nat (length data))) as [Hlong | Hshort].
  - rewrite Z.min_l by exact Hlong. reflexivity.
  - rewrite Z.min_r by lia. rewrite Nat2Z.id.
    rewrite !take_ge; [reflexivity | lia | lia].
Qed.

(** [X9] The check looks for missing fields in the first 100 records only:
    a required field is reported missing exactly when one of the first
    100 records has it absent or null.  What the later records lack is
    not reported. *)
Theorem validate_data_quality_samples_100 (data : list (gmap string value))
    (rep : quality_report) :
  validate_data_quality data = Ok (QualitySuccess rep) ->
  forall field,
    field ∈ missing_fields rep
    <-> field ∈ required_fields
        /\ exists record, record ∈ take 100 data /\ lacks field record = true.
Proof.
  unfold validate_data_quality. destruct data as [|r0 data]; [discriminate|].
  cbv zeta. rewrite take_sample.
  generalize (take 100 (r0 :: data)). intros sample.
  destruct (min_or_none _) as [lo|]; [|discriminate].
  destruct (max_or_none _) as [hi|]; [|discriminate].
  cbn [mbind result_bind]. intros [= <-] field. cbn [missing_fields].
  rewrite elem_of_list_to_set, sample_loop.
  split; [intros [H | H]; [inversion H | exact H] | by right].
Qed.

Lemma validate_data_quality_samples_100_witness :
  exists rep,
    validate_data_quality
      (replicate 100 (observation (VStr "2024-01-01") (VInt 1) (VStr "Solar") (VInt 5))
       ++ [observation (VStr "2024-01-01") (VInt 2) (VStr "Solar") VNone])
    = Ok (QualitySuccess rep)
    /\ "quantity" ∉ missing_fields rep.
Proof.
  destruct (validate_data_quality
              (replicate 100
                 (observation (VStr "2024-01-01") (VInt 1) (VStr "Solar") (VInt 5))
               ++ [observation (VStr "2024-01-01") (VInt 2) (VStr "Solar") VNone]))
    as [[msg|rep]|e] eqn:Hrun; [vm_compute in Hrun; discriminate | | vm_compute in Hrun; discriminate].
  exists rep. split; [reflexivity|]. intros Hin.
  apply (validate_data_quality_samples_100 _ _ Hrun) in Hin
    as (_ & record & Hrecord & Hlacks).
  rewrite take_app_length' in Hrecord by (by rewrite length_replicate).
  apply elem_of_replicate in Hrecord as [-> _]. vm_compute in Hlacks. discriminate.
Defined.

Lemma truthy_present record field :
  py_truthy (dict_get record field) ->
  dict_get_default record field (VStr "") = dict_get record field.
Proof.
  unfold dict_get, dict_get_default. by destruct (record !! field).
Qed.

Lemma text_dates data :
  Forall (fun r => nullable is_text (dict_get r "settlementDate")) data ->
  Forall (fun v => is_text v)
    ((fun record => dict_get_default record "settlementDate" (VStr ""))
       <$> List.filter (fun record => py_truthy (dict_get record "settlementDate")) data).
Proof.
  intros Htyped. apply Forall_fmap, Forall_forall.
  intros r [Hr Ht]%elem_of_filter_bool. simpl.
  rewrite truthy_present by (by rewrite Ht).
  rewrite Forall_forall in Htyped. specialize (Htyped r Hr).
  by destruct (dict_get r "settlementDate").
Qed.

Lemma elem_of_dates data v :
  v ∈ (fun record => dict_get_default record "settlementDate" (VStr ""))
        <$> List.filter (fun record => py_truthy (dict_get record "settlementDate")) data
  <-> exists r, r ∈ data /\ dict_get r "settlementDate" = v /\ py_truthy v = true.
Proof.
  rewrite list_elem_of_fmap. split.
  - intros (r & -> & [Hr Ht]%elem_of_filter_bool).
    exists r. rewrite truthy_present by (by rewrite Ht). by split.
  - intros (r & Hr & <- & Ht). exists r.
    split; [by rewrite truthy_present by (by rewrite Ht)|].
    by apply elem_of_filter_bool.
Qed.

(** [X10] On a non-empty list of records whose settlement dates are text
    or null the check reports success, never its error status.  It
    counts every record; the fuel types it lists are the non-empty
    [psrType] values of the records, each once; and the date range runs
    from the least to the greatest non-empty settlement date, or from
    [None] to [None] when no record has one. *)
Theorem validate_data_quality_report (data : list (gmap string value)) :
  data <> [] ->
  Forall (fun r => nullable is_text (dict_get r "settlementDate")) data ->
  exists rep,
    validate_data_quality data = Ok (QualitySuccess rep)
    /\ total_records rep = Z.of_nat (length data)
    /\ distinct (fuel_types rep)
    /\ (forall v, v ∈ fuel_types rep ->
                  py_truthy v = true /\ exists r, r ∈ data /\ dict_get r "psrType" = v)
    /\ (forall r, r ∈ data -> py_truthy (dict_get r "psrType") = true ->
                  set_mem (dict_get r "psrType") (fuel_types rep) = true)
    /\ match min_date rep, max_date rep with
       | Some lo, Some hi =>
           (exists r, r ∈ data /\ dict_get r "settlementDate" = lo)
           /\ (exists r, r ∈ data /\ dict_get r "settlementDate" = hi)
           /\ forall r, r ∈ data -> py_truthy (dict_get r "settlementDate") = true ->
                        py_lt (dict_get r "settlementDate") lo = Ok false
                        /\ py_lt hi (dict_get r "settlementDate") = Ok false
       | None, None =>
           forall r, r ∈ data -> py_truthy (dict_get r "settlementDate") = false
       | _, _ => False
       end.
Proof.
  intros Hne Htyped. destruct data as [|r0 data]; [done|].
  unfold validate_data_quality. cbv zeta.
  pose proof (text_dates _ Htyped) as Htext.
  pose proof (elem_of_dates (r0 :: data)) as Hdates.
  set (dates := (fun record => dict_get_default record "settlementDate" (VStr ""))
                  <$> List.filter _ (r0 :: data)) in *.
  destruct (set_add_fold (fun record => dict_get_default record "psrType" (VStr ""))
              (List.filter (fun record => py_truthy (dict_get record "psrType")) (r0 :: data))
              []) as (Hmem & Helem & Hdist).
  set (fuels := foldl _ [] (List.filter _ (r0 :: data))) in *.
  assert (forall lo hi,
             min_or_none dates = Ok lo -> max_or_none dates = Ok hi ->
             match lo, hi with
             | Some lo, Some hi =>
                 (exists r, r ∈ r0 :: data /\ dict_get r "settlementDate" = lo)
                 /\ (exists r, r ∈ r0 :: data /\ dict_get r "settlementDate" = hi)
                 /\ forall r, r ∈ r0 :: data ->
                              py_truthy (dict_get r "settlementDate") = true ->
                              py_lt (dict_get r "settlementDate") lo = Ok false
                              /\ py_lt hi (dict_get r "settlementDate") = Ok false
             | None, None =>
                 forall r, r ∈ r0 :: data -> py_truthy (dict_get r "settlementDate") = false
             | _, _ => False
             end) as Hrange.
  { unfold min_or_none, max_or_none. destruct dates as [|d dates'] eqn:Ed.
    - intros lo hi [= <-] [= <-]. intros r Hr.
      destruct (py_truthy (dict_get r "settlementDate")) eqn:Ht; [|reflexivity].
      assert (dict_get r "settlementDate" ∈ @nil value) as Hin
        by (apply Hdates; by exists r).
      inversion Hin.
    - inversion Htext as [|? ? Hd Hrest]; subst.
      intros lo hi.
      destruct (py_min_from d dates') as [m|] eqn:Hmin; [|discriminate].
      destruct (py_max_from d dates') as [M|] eqn:Hmax; [|discriminate].
      cbn [mbind result_bind]. intros [= <-] [= <-].
      destruct (py_min_from_least is_text text_ordered _ _ _ Hd Hrest Hmin)
        as (Hm & Hleast).
      destruct (py_max_from_greatest is_text text_ordered _ _ _ Hd Hrest Hmax)
        as (HM & Hmost).
      apply Hdates in Hm as (rm & Hrm & Hm & _).
      apply Hdates in HM as (rM & HrM & HM & _).
      split; [by exists rm|]. split; [by exists rM|].
      intros r Hr Ht.
      assert (dict_get r "settlementDate" ∈ d :: dates') as Hin
        by (apply Hdates; by exists r).
      split; [by apply Hleast | by apply Hmost]. }
  assert (exists lo, min_or_none dates = Ok lo) as [lo Hlo].
  { unfold min_or_none. destruct dates as [|d dates']; [eauto|].
    inversion Htext as [|? ? Hd Hrest]; subst.
    destruct (py_min_from_total is_text dates' text_comparable d Hd Hrest) as (m & -> & _).
    simpl. eauto. }
  assert (exists hi, max_or_none dates = Ok hi) as [hi Hhi].
  { unfold max_or_none. destruct dates as [|d dates']; [eauto|].
    inversion Htext as [|? ? Hd Hrest]; subst.
    destruct (py_max_from_total is_text dates' text_comparable d Hd Hrest) as (m & -> & _).
    simpl. eauto. }
  rewrite Hlo, Hhi. cbn [mbind result_bind].
  eexists. split; [reflexivity|].
  cbn [total_records fuel_types min_date max_date].
  split; [reflexivity|]. split; [apply Hdist; constructor|]. split; [|split].
  - intros v [Hv | (r & [Hr Ht]%elem_of_filter_bool & ->)]%Helem; [inversion Hv|].
    rewrite truthy_present by (by rewrite Ht).
    split; [exact Ht|]. by exists r.
  - intros r Hr Ht. rewrite Hmem. apply orb_true_iff. right.
    apply existsb_exists. exists r.
    split; [by apply list_elem_of_In, elem_of_filter_bool|].
    rewrite truthy_present by (by rewrite Ht). apply py_eq_refl.
  - by apply Hrange.
Qed.

Lemma validate_data_quality_report_witness :
  exists rep,
    validate_data_quality
      [observation (VStr "2024-01-02") (VInt 1) (VStr "Solar") (VInt 5);
       observation (VStr "2024-01-01") (VInt 2) (VStr "Solar") VNone]
    = Ok (QualitySuccess rep)
    /\ total_records rep = 2.
Proof.
  destruct (validate_data_quality_report
              [observation (VStr "2024-01-02") (VInt 1) (VStr "Solar") (VInt 5);
               observation (VStr "2024-01-01") (VInt 2) (VStr "Solar") VNone])
    as (rep & Hrun & Htotal & _).
  - discriminate.
  - repeat constructor.
  - exists rep. split; [exact Hrun | exact Htotal].
Defined.

End FetchedQualityFacts.

(* ===================================================================== *)
(** * The date ranges that failed to fetch *)
(* ===================================================================== *)

Module FailedRangesFacts.
Import Fetcher Preprocessing Spec PyFacts FetcherChecks Vocabulary SetFacts.





Section Dates.
Context (strptime : string -> option Z) (strftime : Z -> string).


Section Ranges.
Context (successful_dates : list value) (end_ : Z).


End Ranges.

End Dates.


End FailedRangesFacts.

(* ===================================================================== *)
(** * The chunk planner in closed form *)
(* ===================================================================== *)

Module PlannerShape.
Import Fetcher Spec PlannerFacts.




End PlannerShape.

(* ===================================================================== *)
(** * What a run of the orchestrator sends and when it raises *)
(* ===================================================================== *)

Module OrchestratorFacts.
Import Fetcher Spec PyFacts PlannerFacts FetcherFacts Vocabulary.

Section Upstream.
Context {net : Type} (http_get : net -> Z -> Z -> response * net).
Context (strptime : string -> option Z).

(** A fetch of a range of at most 7 days: what it appends to the trace,
    and what it comes to. *)
Lemma retrying_events remaining from_dt to_dt :
  to_dt - from_dt + 1 <= 7 ->
  forall attempt (w : @world net),
    exists tr,
      trace (retrying http_get remaining attempt from_dt to_dt w).2 = trace w ++ tr
      /\ 1 <= count_where is_request tr <= Z.of_nat remaining + 1
      /\ Forall (fun ev => ev = EvRequest from_dt to_dt
                           \/ exists a, attempt <= a < attempt + Z.of_nat remaining
                                        /\ ev = EvSleep (wait_exponential a)) tr
      /\ range_error (retrying http_get remaining attempt from_dt to_dt w).1 = false
      /\ (forall data,
            (retrying http_get remaining attempt from_dt to_dt w).1 = Ok data ->
            exists raw, data = transform <$> raw).
Proof.
  intros Hshort.
  assert (forall (w : @world net),
             trace w ++ [EvRequest from_dt to_dt] = trace w ++ [EvRequest from_dt to_dt]
             /\ 1 <= count_where is_request [EvRequest from_dt to_dt] <= 1
             /\ forall attempt k,
                  Forall (fun ev => ev = EvRequest from_dt to_dt
                                    \/ exists a, attempt <= a < attempt + Z.of_nat k
                                                 /\ ev = EvSleep (wait_exponential a))
                         [EvRequest from_dt to_dt]) as Hone.
  { intros w. split; [reflexivity|]. split; [unfold count_where; simpl; lia|].
    intros attempt k. constructor; [by left | constructor]. }
  induction remaining as [|k IH]; intros attempt w; cbn [retrying];
    unfold fetch_single_chunk_body;
    (destruct (Z.gtb_spec (to_dt - from_dt + 1) 7); [lia|]);
    destruct (http_get (upstream w) from_dt to_dt) as [[raw| | |] n]; cbn;
    try (exists [EvRequest from_dt to_dt];
         destruct (Hone w) as (_ & Hc & Hf);
         split; [reflexivity|]; split; [lia|]; split; [apply Hf|];
         split; [reflexivity|]; intros data [= <-] || intros data [=]; eauto; fail).
  all: destruct (IH (attempt + 1)
                    (emit (EvSleep (wait_exponential attempt))
                          (World n (trace w ++ [EvRequest from_dt to_dt]))))
         as (tr & Htr & Hcount & Hall & Hrange & Hdata);
       exists ([EvRequest from_dt to_dt; EvSleep (wait_exponential attempt)] ++ tr);
       (split; [rewrite Htr; cbn; by rewrite <- !app_assoc|]);
       rewrite count_where_app;
       change (count_where is_request
                 [EvRequest from_dt to_dt; EvSleep (wait_exponential attempt)]) with 1;
       (split; [lia|]);
       (split; [|split; [exact Hrange | exact Hdata]]);
       (constructor; [by left|]);
       (constructor; [right; exists attempt; split; [lia | reflexivity]|]);
       (eapply Forall_impl; [exact Hall|]);
       intros ev [-> | (a & Ha & ->)]; [by left | right; exists a; split; [lia | reflexivity]].
Qed.

Lemma fetch_single_chunk_events from_dt to_dt (w : @world net) :
  to_dt - from_dt + 1 <= 7 ->
  exists tr,
    trace (fetch_single_chunk http_get from_dt to_dt w).2 = trace w ++ tr
    /\ 1 <= count_where is_request tr <= 3
    /\ Forall (fun ev => ev = EvRequest from_dt to_dt \/ ev = EvSleep 4) tr
    /\ range_error (fetch_single_chunk http_get from_dt to_dt w).1 = false
    /\ (forall data, (fetch_single_chunk http_get from_dt to_dt w).1 = Ok data ->
                     exists raw, data = transform <$> raw).
Proof.
  intros Hshort.
  destruct (retrying_events 2 from_dt to_dt Hshort 1 w)
    as (tr & Htr & Hcount & Hall & Hrange & Hdata).
  exists tr. split; [exact Htr|]. split; [exact Hcount|].
  split; [|split; [exact Hrange | exact Hdata]].
  eapply Forall_impl; [exact Hall|].
  intros ev [-> | (a & Ha & ->)]; [by left | right].
  assert (a = 1 \/ a = 2) as [-> | ->] by lia; reflexivity.
Qed.


(** What the fetches of a plan of chunks of at most 7 days come to:
    never the range error, and records shaped by [transform]. *)
Lemma chunk_results_shape chunks :
  Forall (fun c : Z * Z => c.2 - c.1 + 1 <= 7) chunks ->
  forall n,
    Forall (fun r => range_error r = false
                     /\ forall record, record ∈ records_of r ->
                                       exists raw, record = transform raw)
           (chunk_results http_get chunks n).
Proof.
  induction 1 as [|[from_dt to_dt] chunks Hshort Hrest IH]; intros n;
    cbn [chunk_results]; [constructor|].
  simpl in Hshort.
  destruct (fetch_single_chunk_events from_dt to_dt (World n []) Hshort)
    as (_ & _ & _ & _ & Hrange & Hdata).
  destruct (fetch_single_chunk http_get from_dt to_dt (World n [])) as [r w].
  cbn [fst] in *. constructor; [|apply IH].
  split; [exact Hrange|].
  intros record Hrecord. destruct r as [data|e]; [|inversion Hrecord].
  destruct (Hdata data eq_refl) as [raw ->].
  apply list_elem_of_fmap in Hrecord as (x & -> & _). by exists x.
Qed.

(** The orchestrator always finishes.  It raises only a
    [ValueError], and only when a date does not parse or the start date
    lies after the end date; nothing has been sent then.  On every other
    input it returns a list, whatever becomes of the chunks. *)
Lemma fetch_generation_data_cases (start_date end_date : string) (w : @world net) :
  exists r w',
    fetch_generation_data http_get strptime start_date end_date w = Some (r, w')
    /\ match r with
       | Ok _ =>
           exists start end_,
             strptime start_date = Some start /\ strptime end_date = Some end_
             /\ start <= end_
       | Raise e =>
           w' = w
           /\ ((e = ValueError_strptime
                /\ (strptime start_date = None \/ strptime end_date = None))
               \/ (e = ValueError_start_after_end start_date end_date
                   /\ exists start end_,
                        strptime start_date = Some start
                        /\ strptime end_date = Some end_ /\ end_ < start))
       end.
Proof.
  destruct (strptime start_date) as [start|] eqn:Hs.
  2: { exists (Raise ValueError_strptime), w. unfold fetch_generation_data. rewrite Hs.
       split; [reflexivity|]. split; [reflexivity|]. left. split; [reflexivity | by left]. }
  destruct (strptime end_date) as [end_|] eqn:He.
  2: { exists (Raise ValueError_strptime), w. unfold fetch_generation_data. rewrite Hs, He.
       split; [reflexivity|]. split; [reflexivity|]. left. split; [reflexivity | by right]. }
  destruct (Z.le_gt_cases start end_) as [Hle | Hgt].
  - destruct (fetch_generation_data_run http_get strptime _ _ _ _ w Hs He Hle)
      as (chunks & w' & _ & _ & -> & _).
    eexists _, w'. split; [reflexivity|]. by exists start, end_.
  - exists (Raise (ValueError_start_after_end start_date end_date)), w.
    unfold fetch_generation_data. rewrite Hs, He.
    destruct (Z.gtb_spec start end_); [|lia].
    split; [reflexivity|]. split; [reflexivity|]. right.
    split; [reflexivity|]. exists start, end_. repeat split; [lia].
Qed.



End Upstream.


End OrchestratorFacts.

(* ===================================================================== *)
(** * The pauses of a run *)
(* ===================================================================== *)

Module PauseFacts.
Import Fetcher Spec PyFacts PlannerFacts FetcherFacts Vocabulary OrchestratorFacts.

Section Upstream.
Context {net : Type} (http_get : net -> Z -> Z -> response * net).
Context (strptime : string -> option Z).




End Upstream.


End PauseFacts.

(* ===================================================================== *)
(** * The normalizer and the deduplicator as operations *)
(* ===================================================================== *)

Module NormalizerAlgebra.
Import Fetcher Preprocessing Spec PyFacts FetcherFacts NormalizerFacts Vocabulary
       OrchestratorFacts.

Lemma handle_missing_fields_normalizes data :
  Forall2 normalizes_to data (handle_missing_fields data).
Proof.
  unfold handle_missing_fields, handle_missing_fields_run.
  destruct data as [|record data]; [constructor|].
  destruct (normalize_loop (record :: data) [] ∅) as (out & stats & -> & Hout).
  exact Hout.
Qed.

(** What the normalizer makes of a record binds the nine fields. *)
Lemma normalizes_to_complete record processed :
  normalizes_to record processed -> complete processed.
Proof. intros [Hexp _] field Hin. rewrite (Hexp field Hin). eauto. Qed.

(** It is the record itself when the record binds them already. *)
Lemma normalizes_to_fixed record processed :
  normalizes_to record processed -> complete record -> processed = record.
Proof.
  intros [Hexp Hextra] Hcomplete. apply map_eq. intros field.
  destruct (decide (field ∈ expected_fields)) as [Hin | Hout].
  - rewrite (Hexp field Hin). unfold dict_get.
    by destruct (Hcomplete field Hin) as [v ->].
  - by apply Hextra.
Qed.

(** [X12] The normalizer keeps the number and the order of the records,
    and applying it twice is applying it once.  The lists it leaves
    unchanged are exactly those whose records bind each of the nine
    expected fields, to a value or to [None]. *)
Theorem handle_missing_fields_fixed_points (data : list (gmap string value)) :
  length (handle_missing_fields data) = length data
  /\ Forall complete (handle_missing_fields data)
  /\ handle_missing_fields (handle_missing_fields data) = handle_missing_fields data
  /\ (handle_missing_fields data = data <-> Forall complete data).
Proof.
  pose proof (handle_missing_fields_normalizes data) as Hall.
  assert (Forall complete (handle_missing_fields data)) as Hcomplete.
  { apply Forall_forall. intros p (i & Hi)%list_elem_of_lookup_1.
    destruct (Forall2_lookup_r _ _ _ _ _ Hall Hi) as (r & _ & Hr).
    by apply normalizes_to_complete with r. }
  assert (forall l, Forall complete l -> handle_missing_fields l = l) as Hfixed.
  { intros l Hl. pose proof (handle_missing_fields_normalizes l) as Hnorm.
    symmetry. apply list_eq_Forall2.
    revert Hl. induction Hnorm as [|r p l l' Hrp Hrest IH]; intros Hl; [constructor|].
    inversion Hl as [|? ? Hr Hl']; subst.
    constructor; [symmetry; by apply normalizes_to_fixed | by apply IH]. }
  split; [symmetry; exact (Forall2_length _ _ _ Hall)|].
  split; [exact Hcomplete|]. split; [by apply Hfixed|].
  split; [intros <-; exact Hcomplete | apply Hfixed].
Qed.

Lemma transform_complete raw : complete (transform raw).
Proof.
  intros field Hin. unfold expected_fields in Hin.
  rewrite !elem_of_cons, elem_of_nil in Hin.
  unfold transform.
  repeat (destruct Hin as [-> | Hin];
          [repeat (rewrite lookup_insert; case_decide; [eauto|]); congruence|]).
  contradiction.
Qed.

Section Upstream.
Context {net : Type} (http_get : net -> Z -> Z -> response * net).
Context (strptime : string -> option Z).

(** [X13] The fetcher and the normalizer agree on the shape of a record:
    each record a run of the orchestrator returns binds the nine
    expected fields already, so the normalizer returns the fetched list
    as it is. *)
Theorem fetched_data_is_normalized
    (start_date end_date : string) (w w' : @world net)
    (data : list (gmap string value)) :
  fetch_generation_data http_get strptime start_date end_date w = Some (Ok data, w') ->
  Forall complete data /\ handle_missing_fields data = data.
Proof.
  intros Hrun.
  assert (Forall complete data) as Hcomplete.
  { unfold fetch_generation_data in Hrun.
    destruct (strptime start_date) as [start|] eqn:Hs; [|discriminate].
    destruct (strptime end_date) as [end_|] eqn:He; [|discriminate].
    destruct (Z.gtb_spec start end_) as [|Hle]; [discriminate|].
    destruct (fetch_generation_data_run http_get strptime _ _ _ _ w Hs He Hle)
      as (chunks & w1 & Hplan & Htiles & Hrun' & _).
    unfold fetch_generation_data in Hrun'. rewrite Hs, He in Hrun'.
    destruct (Z.gtb_spec start end_); [lia|].
    rewrite Hrun' in Hrun. injection Hrun as <- _.
    assert (Forall (fun c : Z * Z => c.2 - c.1 + 1 <= 7) chunks) as Hshort.
    { eapply Forall_impl; [exact (PlannerFacts.tiles_bounds _ _ _ _ Htiles)|].
      simpl. unfold MAX_CHUNK_DAYS. intros c. lia. }
    pose proof (chunk_results_shape http_get chunks Hshort (upstream w)) as Hshape.
    apply Forall_forall. intros record Hrecord.
    apply list_elem_of_In, in_concat in Hrecord as (l & Hl & Hrecord).
    apply list_elem_of_In in Hl, Hrecord.
    apply list_elem_of_fmap in Hl as (r & -> & Hr).
    rewrite Forall_forall in Hshape.
    destruct (Hshape r Hr) as [_ Hraw].
    destruct (Hraw record Hrecord) as [raw ->]. apply transform_complete. }
  split; [exact Hcomplete|].
  revert Hcomplete. generalize data. intros l Hl.
  pose proof (handle_missing_fields_normalizes l) as Hnorm.
  symmetry. apply list_eq_Forall2.
  induction Hnorm as [|r p l0 l' Hrp Hrest IH]; [constructor|].
  inversion Hl as [|? ? Hr Hl']; subst.
  constructor; [symmetry; by apply normalizes_to_fixed | by apply IH].
Qed.
End Upstream.

Lemma fetched_data_is_normalized_witness :
  exists data w',
    fetch_generation_data (always (RespData mock_api_data)) example_strptime
      "2024-01-01" "2024-01-02" (World () [])
    = Some (Ok data, w')
    /\ handle_missing_fields data = data.
Proof.
  destruct (fetch_generation_data_run (always (RespData mock_api_data)) example_strptime
              "2024-01-01" "2024-01-02" 738886 738887 (World () []))
    as (chunks & w' & _ & _ & Hrun & _); [reflexivity | reflexivity | lia |].
  eexists _, w'. split; [exact Hrun|].
  exact (proj2 (fetched_data_is_normalized _ _ _ _ _ _ _ Hrun)).
Defined.

End NormalizerAlgebra.

Module DeduplicatorAlgebra.
Import Preprocessing Spec PyFacts DeduplicatorFacts Vocabulary.

Lemma same_key_sym a b : same_key a b = same_key b a.
Proof. unfold same_key. apply key_eq_sym. Qed.

(** A record whose key no group has opens a group of its own. *)
Lemma group_append_new groups key record :
  Forall (fun g : value * value * value * list (gmap string value) =>
            key_eq g.1 key = false) groups ->
  group_append groups key record = groups ++ [(key, [record])].
Proof.
  induction 1 as [|[k records] groups Hk Hrest IH]; [reflexivity|].
  cbn [group_append]. simpl in Hk. rewrite Hk, IH. reflexivity.
Qed.

Lemma group_records_unique data :
  forall groups,
    unique_keys data ->
    Forall (fun g : value * value * value * list (gmap string value) =>
              Forall (fun r => key_eq g.1 (natural_key r) = false) data) groups ->
    foldl (fun groups record => group_append groups (natural_key record) record)
          groups data
    = groups ++ ((fun r => (natural_key r, [r])) <$> data).
Proof.
  induction data as [|r data IH]; intros groups Hunique Hgroups; cbn [foldl].
  - by rewrite app_nil_r.
  - apply StronglySorted_cons in Hunique as [Hr Hunique].
    rewrite group_append_new.
    2: { eapply Forall_impl; [exact Hgroups|]. intros g Hg.
         by apply Forall_cons in Hg as [Hg _]. }
    rewrite IH; [by rewrite <- app_assoc | exact Hunique |].
    apply Forall_app. split.
    + eapply Forall_impl; [exact Hgroups|]. intros g Hg.
      by apply Forall_cons in Hg as [_ Hg].
    + constructor; [|constructor]. exact Hr.
Qed.

Lemma survivors_singletons data :
  survivors ((fun r => (natural_key r, [r])) <$> data) = Ok data.
Proof.
  induction data as [|r data IH]; [reflexivity|].
  rewrite fmap_cons. cbn [survivors]. rewrite IH. reflexivity.
Qed.

Lemma deduplicate_unique data : unique_keys data -> deduplicate_data data = Ok data.
Proof.
  intros Hunique. unfold deduplicate_data. destruct data as [|r data]; [reflexivity|].
  unfold group_records. rewrite (group_records_unique _ [] Hunique) by constructor.
  apply survivors_singletons.
Qed.

(** The survivor of a group is one of its records. *)
Lemma survivor_member records o : survivor records = Ok o -> o ∈ records.
Proof.
  unfold survivor. destruct (1 <? Z.of_nat (length records)).
  - destruct (py_sort publish_key true records) as [sorted|] eqn:Hsort; [|discriminate].
    cbn [mbind result_bind]. destruct sorted as [|x sorted]; [discriminate|].
    intros [= <-]. rewrite <- (py_sort_perm _ _ _ _ Hsort). left.
  - cbn [mbind result_bind]. destruct records as [|x records]; [discriminate|].
    intros [= <-]. left.
Qed.

Lemma survivors_members groups :
  forall out,
    survivors groups = Ok out ->
    Forall2 (fun (g : value * value * value * list (gmap string value)) o => o ∈ g.2)
            groups out.
Proof.
  induction groups as [|[k records] groups IH]; intros out; cbn [survivors].
  - intros [= <-]. constructor.
  - destruct (survivor records) as [o|] eqn:Ho; [|discriminate].
    destruct (survivors groups) as [rest|]; [|discriminate].
    cbn [mbind result_bind]. intros [= <-].
    constructor; [by apply survivor_member | by apply IH].
Qed.

Lemma unique_keys_of_keys keys out :
  Forall2 (fun k o => key_eq k (natural_key o) = true) keys out ->
  StronglySorted (fun a b => key_eq a b = false) keys ->
  unique_keys out.
Proof.
  induction 1 as [|k o keys out Hko Hrest IH]; intros Hsorted; [constructor|].
  apply StronglySorted_cons in Hsorted as [Hk Hsorted].
  constructor; [by apply IH|].
  apply Forall_forall. intros o' (i & Hi)%list_elem_of_lookup_1.
  destruct (Forall2_lookup_r _ _ _ _ _ Hrest Hi) as (k' & Hk' & Hko').
  rewrite Forall_forall in Hk.
  specialize (Hk k' (list_elem_of_lookup_2 _ _ _ Hk')).
  unfold same_key. destruct (key_eq (natural_key o) (natural_key o')) eqn:E; [|reflexivity].
  rewrite <- Hk. symmetry.
  apply key_eq_trans with (natural_key o); [exact Hko|].
  apply key_eq_trans with (natural_key o'); [exact E | by rewrite key_eq_sym].
Qed.

(** [X14] Whatever the publication times, a list in which no two records
    share a natural key is returned as it is: nothing is sorted, so
    nothing is compared and nothing can raise. *)
Theorem deduplicate_data_no_duplicates_identity (data : list (gmap string value)) :
  unique_keys data -> deduplicate_data data = Ok data.
Proof. apply deduplicate_unique. Qed.

Lemma deduplicate_data_no_duplicates_identity_witness :
  deduplicate_data [solar 1 (201 # 2) VNone; solar 2 (105 # 1) VNone]
  = Ok [solar 1 (201 # 2) VNone; solar 2 (105 # 1) VNone].
Proof.
  apply deduplicate_data_no_duplicates_identity.
  repeat constructor.
Defined.

(** [X15] Whenever the deduplicator returns, it returns one record of
    the input for each natural key of the input, in the order the keys
    first occur; no two of the records returned share a natural key; and
    deduplicating what it returned returns the same list. *)
Theorem deduplicate_data_idempotent (data out : list (gmap string value)) :
  deduplicate_data data = Ok out ->
  Forall2 (fun k o => key_eq k (natural_key o) = true /\ o ∈ data) (first_keys data) out
  /\ unique_keys out
  /\ deduplicate_data out = Ok out.
Proof.
  intros Hrun.
  destruct (group_records_closed data) as (Hgroups & Hsorted & _ & _ & _).
  assert (survivors (group_records data) = Ok out) as Hsurv.
  { unfold deduplicate_data in Hrun. destruct data; [|exact Hrun].
    injection Hrun as <-. reflexivity. }
  apply survivors_members in Hsurv. rewrite Hgroups in Hsurv.
  apply Forall2_fmap_l in Hsurv.
  assert (Forall2 (fun k o => key_eq k (natural_key o) = true /\ o ∈ data)
            (first_keys data) out) as Hkeys.
  { eapply Forall2_impl; [exact Hsurv|]. simpl.
    intros k o [Hin Hk]%elem_of_members. by split. }
  assert (unique_keys out) as Hunique.
  { apply unique_keys_of_keys with (first_keys data); [|exact Hsorted].
    eapply Forall2_impl; [exact Hkeys|]. simpl. tauto. }
  split; [exact Hkeys|]. split; [exact Hunique|]. by apply deduplicate_unique.
Qed.

Lemma deduplicate_data_idempotent_witness :
  deduplicate_data [solar 1 (105 # 1) (VStr "2024-01-01T01:00:00Z")]
  = Ok [solar 1 (105 # 1) (VStr "2024-01-01T01:00:00Z")].
Proof.
  apply (deduplicate_data_idempotent
           [solar 1 (201 # 2) (VStr "2024-01-01T00:00:00Z");
            solar 1 (105 # 1) (VStr "2024-01-01T01:00:00Z")]).
  exact deduplicate_data_later_survives.
Defined.

End DeduplicatorAlgebra.

(* ===================================================================== *)
(** * The figures of the processed-data report *)
(* ===================================================================== *)

Module ReportFacts.
Import FetcherChecks Preprocessing Spec PyFacts Vocabulary SetFacts
       QualityFacts.
#[local] Set Warnings "-inexact-float".

(** ** Order on numbers *)





(** ** The sets the scan collects *)





(** ** The loop over the records *)


Lemma collect_cons field s record data :
  collect field s (record :: data) = collect field (collect field s [record]) data.
Proof. reflexivity. Qed.



(** ** The counts of missing critical fields *)




(** ** Text in strict order *)





Section Mean.
Context (py_mean : list value -> result float).





End Mean.




End ReportFacts.

(* ===================================================================== *)
(** * The two checks of the pipeline agree *)
(* ===================================================================== *)

Module AgreementFacts.
Import FetcherChecks Preprocessing Spec PyFacts Vocabulary SetFacts QualityFacts
       NormalizerFacts DeduplicatorFacts NormalizerAlgebra DeduplicatorAlgebra
       FetchedQualityFacts ReportFacts.





(** Every record of the input shares its natural key with a record the
    deduplicator returns. *)
Lemma deduplicate_cover data out :
  deduplicate_data data = Ok out ->
  (forall o, o ∈ out -> o ∈ data)
  /\ (forall r, r ∈ data -> exists o, o ∈ out /\ same_key o r = true)
  /\ length out = length (first_keys data).
Proof.
  intros Hrun.
  destruct (group_records_closed data) as (Hgroups & _ & Hcover & _).
  assert (survivors (group_records data) = Ok out) as Hsurv.
  { unfold deduplicate_data in Hrun. destruct data; [|exact Hrun].
    injection Hrun as <-. reflexivity. }
  apply survivors_members in Hsurv. rewrite Hgroups in Hsurv.
  apply Forall2_fmap_l in Hsurv. simpl in Hsurv.
  split; [|split].
  - intros o (i & Hi)%list_elem_of_lookup_1.
    destruct (Forall2_lookup_r _ _ _ _ _ Hsurv Hi) as (k & _ & [Hin _]%elem_of_members).
    exact Hin.
  - intros r Hr. specialize (Hcover r Hr).
    apply existsb_exists in Hcover
        as (k & (i & Hi)%list_elem_of_In%list_elem_of_lookup_1 & Hkr).
    destruct (Forall2_lookup_l _ _ _ _ _ Hsurv Hi) as (o & Ho & [_ Hko]%elem_of_members).
    exists o. split; [eapply list_elem_of_lookup_2; exact Ho|].
    unfold same_key. apply key_eq_trans with k; [by rewrite key_eq_sym | exact Hkr].
  - symmetry. exact (Forall2_length _ _ _ Hsurv).
Qed.




Section Mean.
Context (py_mean : list value -> result float).


End Mean.


End AgreementFacts.

(* ===================================================================== *)
(** * The request schema and the fetch endpoint *)
(* ===================================================================== *)

Module SchemaFacts.
Import Schemas.


(** [X19] The schema accepts a request exactly when
    [start_date <= end_date <= today], and what it builds holds the two
    dates as given; a request for a single day is accepted.  When the
    start date lies in the future the order of the two dates is not
    checked: only the dates in the future are reported. *)
Theorem FetchDataRequest_accepts (today start_date end_date : Z) :
  (start_date <= end_date <= today
   <-> FetchDataRequest today start_date end_date = inr (start_date, end_date))
  /\ (forall request, FetchDataRequest today start_date end_date = inr request ->
                      request = (start_date, end_date))
  /\ (today < start_date ->
      FetchDataRequest today start_date end_date
      = inl (("start_date"%string, DateInFuture)
               :: if end_date >? today then [("end_date"%string, DateInFuture)] else []))
  /\ (end_date < start_date <= today ->
      FetchDataRequest today start_date end_date = inl [("end_date"%string, EndBeforeStart)]).
Proof.
  unfold FetchDataRequest, validate_date_range, validate_date_not_future.
  cbn [run_validators].
  destruct (Z.gtb_spec start_date today) as [Hfuture | Hpast].
  - rewrite lookup_empty. destruct (Z.gtb_spec end_date today).
    + split; [split; [intros; lia | discriminate]|]. split; [discriminate|].
      split; [reflexivity | intros; lia].
    + split; [split; [intros; lia | discriminate]|]. split; [discriminate|].
      split; [reflexivity | intros; lia].
  - rewrite lookup_insert_eq. destruct (Z.ltb_spec end_date start_date) as [Hrev | Hord].
    + split; [split; [intros; lia | discriminate]|]. split; [discriminate|].
      split; [intros; lia | reflexivity].
    + destruct (Z.gtb_spec end_date today).
      * split; [split; [intros; lia | discriminate]|]. split; [discriminate|].
        split; intros; lia.
      * split; [split; [reflexivity | intros; lia]|]. split; [by intros ? [= <-]|].
        split; intros; lia.
Qed.

End SchemaFacts.

Module RouteFacts.
Import Fetcher Preprocessing Spec PyFacts FetcherChecks Operations DataRoute
       FetcherFacts NormalizerFacts DeduplicatorFacts Vocabulary OrchestratorFacts
       NormalizerAlgebra DeduplicatorAlgebra.

(** The first check never answers a non-empty list with its error
    status. *)
Lemma validate_data_quality_nonempty record data message :
  validate_data_quality (record :: data) <> Ok (QualityError message).
Proof.
  unfold validate_data_quality. cbv zeta.
  destruct (min_or_none _); [|discriminate].
  destruct (max_or_none _); discriminate.
Qed.

(** Neither does the second. *)
Lemma validate_processed_data_nonempty py_mean record data message :
  validate_processed_data py_mean (record :: data) <> Ok (StatusError message).
Proof.
  unfold validate_processed_data. cbv zeta.
  destruct (quantity_statistics _ _); [|discriminate].
  destruct (py_sort _ _ _); [|discriminate].
  destruct (min_or_none _); [|discriminate].
  destruct (max_or_none _); discriminate.
Qed.

(** The deduplicator returns as many records as there are natural keys,
    so at least one for a non-empty input. *)
Lemma deduplicate_nonempty record data out :
  deduplicate_data (record :: data) = Ok out -> out <> [].
Proof.
  intros Hrun ->.
  destruct (group_records_closed (record :: data)) as (Hgroups & _ & Hcover & _).
  unfold deduplicate_data in Hrun. apply survivors_members in Hrun.
  rewrite Hgroups in Hrun. apply Forall2_length in Hrun.
  rewrite length_fmap in Hrun.
  specialize (Hcover record ltac:(left)).
  destruct (first_keys (record :: data)); [discriminate Hcover | discriminate Hrun].
Qed.

Lemma handle_missing_fields_nonempty data :
  data <> [] -> handle_missing_fields data <> [].
Proof.
  intros Hne Hnil.
  pose proof (Forall2_length _ _ _ (handle_missing_fields_normalizes data)) as Hlen.
  rewrite Hnil in Hlen. by destruct data.
Qed.

Section Route.
Context {net : Type} (http_get : net -> Z -> Z -> response * net).
Context (strptime : string -> option Z) (strftime : Z -> string).
Context (py_mean : list value -> result float).
Context {db E : Type}
        (store_records : db -> list (gmap string value) -> (storage_result + E) * db).
Context (utcnow : @world net -> Q).

(** What a call of the pipeline comes to. *)
Lemma fetch_and_process_cases (start_date end_date : string) (w : @world net) (d : db) :
  exists out w' d',
    _fetch_and_process_data http_get strptime py_mean store_records
      start_date end_date w d = Some (out, w', d')
    /\ exists r,
         fetch_generation_data http_get strptime start_date end_date w = Some (r, w')
         /\ match out with
            | Done result =>
                failed_chunks result = 0
                /\ exists raw_data deduplicated storage,
                     r = Ok raw_data
                     /\ fetched result = Z.of_nat (length raw_data)
                     /\ 0 < fetched result
                     /\ deduplicate_data raw_data = Ok deduplicated
                     /\ store_records d (handle_missing_fields deduplicated)
                        = (inl storage, d')
                     /\ stored result = inserted storage + updated storage
            | Failed (HTTPException status_code detail) =>
                status_code = 404 /\ detail = NoDataFound /\ r = Ok [] /\ d' = d
            | Failed (Raised e) =>
                d' = d
                /\ (r = Raise e
                    \/ exists raw_data,
                         r = Ok raw_data
                         /\ (validate_data_quality raw_data = Raise e
                             \/ deduplicate_data raw_data = Raise e
                             \/ exists deduplicated,
                                  deduplicate_data raw_data = Ok deduplicated
                                  /\ validate_processed_data py_mean
                                       (handle_missing_fields deduplicated) = Raise e))
            | Failed (DatabaseError e) =>
                exists raw_data deduplicated,
                  r = Ok raw_data
                  /\ deduplicate_data raw_data = Ok deduplicated
                  /\ store_records d (handle_missing_fields deduplicated) = (inr e, d')
            end.
Proof.
  unfold _fetch_and_process_data.
  destruct (fetch_generation_data_cases http_get strptime start_date end_date w)
    as (r & w' & -> & _).
  cbn [mbind option_bind].
  destruct r as [[|record raw]|e].
  - eexists _, w', d. split; [reflexivity|]. exists (Ok []). split; [reflexivity|]. auto.
  - destruct (validate_data_quality (record :: raw)) as [[message|rep]|e] eqn:Hcheck.
    + by apply validate_data_quality_nonempty in Hcheck.
    + destruct (deduplicate_data (record :: raw)) as [deduplicated|e] eqn:Hdedup.
      * pose proof (deduplicate_nonempty _ _ _ Hdedup) as Hne.
        apply handle_missing_fields_nonempty in Hne.
        destruct (handle_missing_fields deduplicated) as [|p processed] eqn:Hp; [done|].
        destruct (validate_processed_data py_mean (p :: processed))
          as [[message|rep']|e] eqn:Hfinal.
        -- by apply validate_processed_data_nonempty in Hfinal.
        -- destruct (store_records d (p :: processed)) as [[storage|e] d1] eqn:Hstore.
           ++ eexists _, w', d1. split; [reflexivity|].
              exists (Ok (record :: raw)). split; [reflexivity|].
              split; [reflexivity|]. exists (record :: raw), deduplicated, storage.
              cbn [fetched stored inserted updated length].
              split; [reflexivity|]. split; [reflexivity|]. split; [lia|].
              split; [exact Hdedup|]. split; [by rewrite Hp | reflexivity].
           ++ eexists _, w', d1. split; [reflexivity|].
              exists (Ok (record :: raw)). split; [reflexivity|].
              exists (record :: raw), deduplicated.
              split; [reflexivity|]. split; [exact Hdedup | by rewrite Hp].
        -- eexists _, w', d. split; [reflexivity|].
           exists (Ok (record :: raw)). split; [reflexivity|]. split; [reflexivity|].
           right. exists (record :: raw). split; [reflexivity|]. right. right.
           exists deduplicated. split; [exact Hdedup | by rewrite Hp].
      * eexists _, w', d. split; [reflexivity|].
        exists (Ok (record :: raw)). split; [reflexivity|]. split; [reflexivity|].
        right. exists (record :: raw). split; [reflexivity|]. right. left. exact Hdedup.
    + eexists _, w', d. split; [reflexivity|].
      exists (Ok (record :: raw)). split; [reflexivity|]. split; [reflexivity|].
      right. exists (record :: raw). split; [reflexivity|]. left. exact Hcheck.
  - eexists _, w', d. split; [reflexivity|]. exists (Raise e). split; [reflexivity|].
    split; [reflexivity | by left].
Qed.

(** [X20] The pipeline behind the fetch endpoint always finishes, and
    its two status-400 branches are dead: neither check answers a
    non-empty list with its error status, and the list stays non-empty
    through deduplication and normalization.  It fails with status 404
    exactly when the fetch returned no record, and with the exception of
    the stage that raised otherwise; the database is not touched unless
    both checks have passed.  When it returns, [fetched] is the number
    of fetched records, [stored] is [inserted + updated] of the storage
    result, and [failed_chunks] is 0 whatever became of the chunks. *)
Theorem fetch_and_process_outcomes (start_date end_date : string) (w : @world net) (d : db) :
  exists out w' d',
    _fetch_and_process_data http_get strptime py_mean store_records
      start_date end_date w d = Some (out, w', d')
    /\ exists r,
         fetch_generation_data http_get strptime start_date end_date w = Some (r, w')
         /\ match out with
            | Done result =>
                failed_chunks result = 0
                /\ exists raw_data deduplicated storage,
                     r = Ok raw_data
                     /\ fetched result = Z.of_nat (length raw_data)
                     /\ 0 < fetched result
                     /\ deduplicate_data raw_data = Ok deduplicated
                     /\ store_records d (handle_missing_fields deduplicated)
                        = (inl storage, d')
                     /\ stored result = inserted storage + updated storage
            | Failed (HTTPException status_code detail) =>
                status_code = 404 /\ detail = NoDataFound /\ r = Ok [] /\ d' = d
            | Failed (Raised e) =>
                d' = d
                /\ (r = Raise e
                    \/ exists raw_data,
                         r = Ok raw_data
                         /\ (validate_data_quality raw_data = Raise e
                             \/ deduplicate_data raw_data = Raise e
                             \/ exists deduplicated,
                                  deduplicate_data raw_data = Ok deduplicated
                                  /\ validate_processed_data py_mean
                                       (handle_missing_fields deduplicated) = Raise e))
            | Failed (DatabaseError e) =>
                exists raw_data deduplicated,
                  r = Ok raw_data
                  /\ deduplicate_data raw_data = Ok deduplicated
                  /\ store_records d (handle_missing_fields deduplicated) = (inr e, d')
            end.
Proof. apply fetch_and_process_cases. Qed.

(** [X21] The fetch endpoint.  A request for more than 30 days is
    answered at once with the status "processing" and zeros: the
    pipeline is handed to the background tasks, and nothing has been
    fetched or stored when the response is built.  Any other request
    runs the pipeline: it is answered with the status "completed" and
    [failed_chunks] 0, or fails with status 500, whatever the pipeline
    raised; the pipeline's status 404 for an empty fetch never reaches
    the client as such. *)
Theorem fetch_and_store_data_responses (start_date end_date : Z) (w : @world net) (d : db) :
  (30 < end_date - start_date + 1 ->
   fetch_and_store_data http_get strptime strftime py_mean store_records utcnow
     start_date end_date w d
   = Some (Done (Build_FetchDataResponse "processing"
                   (BackgroundStarted (end_date - start_date + 1)) 0 0 0 0),
           [(strftime start_date, strftime end_date)], w, d))
  /\ (end_date - start_date + 1 <= 30 ->
      exists out w' d',
        fetch_and_store_data http_get strptime strftime py_mean store_records utcnow
          start_date end_date w d
        = Some (out, [], w', d')
        /\ match out with
           | Done response =>
               status response = "completed"%string
               /\ message response = StoredSuccessfully
               /\ response_failed_chunks response = 0
               /\ 0 < records_fetched response
               /\ processing_time response = (utcnow w' - utcnow w)%Q
               /\ exists result,
                    _fetch_and_process_data http_get strptime py_mean store_records
                      (strftime start_date) (strftime end_date) w d
                    = Some (Done result, w', d')
                    /\ records_fetched response = fetched result
                    /\ records_stored response = stored result
           | Failed e =>
               exists cause,
                 e = HTTPException 500 (StrOf cause)
                 /\ _fetch_and_process_data http_get strptime py_mean store_records
                      (strftime start_date) (strftime end_date) w d
                    = Some (Failed cause, w', d')
           end).
Proof.
  unfold fetch_and_store_data. cbv zeta. split.
  - intros Hlong. destruct (Z.gtb_spec (end_date - start_date + 1) 30); [reflexivity | lia].
  - intros Hshort. destruct (Z.gtb_spec (end_date - start_date + 1) 30); [lia|].
    destruct (fetch_and_process_cases (strftime start_date) (strftime end_date) w d)
      as (out & w' & d' & Hrun & r & _ & Hout).
    rewrite Hrun. cbn [mbind option_bind].
    destruct out as [result|cause].
    + eexists _, w', d'. split; [reflexivity|].
      destruct Hout as (Hfailed & raw & dd & st & _ & _ & Hpos & _).
      cbn. repeat split; try done. exists result. by repeat split.
    + eexists _, w', d'. split; [reflexivity|]. by exists cause.
Qed.


End Route.


End RouteFacts.

(* ===================================================================== *)
(** * Storing records *)
(* ===================================================================== *)

Module StorageFacts.
Import Fetcher Preprocessing Spec Operations.

Section Session.
Context {session row timestamp E : Type}.
Context (strptime : string -> option Z)
        (fromisoformat : string -> option timestamp).
Context (query_first : session -> @column timestamp -> value -> value
                       -> (option row + E) * session).
Context (update : session -> row -> @columns timestamp -> session).
Context (add : session -> @columns timestamp -> session).
Context (commit : session -> option E * session)
        (rollback : session -> session).

#[local] Abbreviation store_record :=
  (store_record strptime fromisoformat query_first update add).
#[local] Abbreviation store_records :=
  (store_records strptime fromisoformat query_first update add commit rollback).

(** Each round of the loop adds one to exactly one of the counters. *)
Lemma store_record_tally t s record :
  exists t' s',
    store_record (t, s) record = (t', s')
    /\ ((inserted_count t' = inserted_count t + 1 /\ updated_count t' = updated_count t
         /\ error_count t' = error_count t)
        \/ (inserted_count t' = inserted_count t /\ updated_count t' = updated_count t + 1
            /\ error_count t' = error_count t)
        \/ (inserted_count t' = inserted_count t /\ updated_count t' = updated_count t
            /\ error_count t' = error_count t + 1)).
Proof.
  unfold Operations.store_record.
  destruct (match dict_get record "settlementDate" with
            | VStr text => CDate <$> strptime text
            | v => Some (CValue v)
            end) as [settlement_date|]; [|eexists _, _; split; [reflexivity|]; auto].
  destruct (parse_time fromisoformat (dict_get record "publishTime")) as [publish_time|];
    [|eexists _, _; split; [reflexivity|]; auto].
  destruct (parse_time fromisoformat (dict_get record "startTime")) as [start_time|];
    [|eexists _, _; split; [reflexivity|]; auto].
  destruct (query_first s settlement_date (dict_get record "settlementPeriod")
              (dict_get record "psrType")) as [[[existing|]|e] s1];
    eexists _, _; (split; [reflexivity|]); cbn; auto.
Qed.

Lemma store_loop records :
  forall t s,
    exists t' s',
      foldl store_record (t, s) records = (t', s')
      /\ inserted_count t' + updated_count t' + error_count t'
         = inserted_count t + updated_count t + error_count t + Z.of_nat (length records)
      /\ inserted_count t <= inserted_count t'
      /\ updated_count t <= updated_count t'
      /\ error_count t <= error_count t'.
Proof.
  induction records as [|record records IH]; intros t s; cbn [foldl].
  - exists t, s. split; [reflexivity|]. cbn [length]. lia.
  - destruct (store_record_tally t s record) as (t1 & s1 & -> & Hstep).
    destruct (IH t1 s1) as (t' & s' & -> & Hsum & Hi & Hu & He).
    exists t', s'. split; [reflexivity|]. cbn [length]. lia.
Qed.

(** When the commit succeeds the three counts add up to the number of
    records; when it fails its exception is raised after a rollback. *)
Lemma store_records_sum (records : list (gmap string value)) (s : session) :
  match store_records s records with
  | (inl result, s') =>
      inserted result + updated result + errors result = Z.of_nat (length records)
      /\ 0 <= inserted result /\ 0 <= updated result /\ 0 <= errors result
  | (inr e, s') =>
      records <> []
      /\ exists s1 s2, commit s1 = (Some e, s2) /\ s' = rollback s2
  end.
Proof.
  unfold Operations.store_records. destruct records as [|record records].
  - cbn. lia.
  - destruct (store_loop (record :: records) (Tally 0 0 0) s)
      as (t & s1 & -> & Hsum & Hi & Hu & He).
    destruct (commit s1) as [[e|] s2] eqn:Hcommit.
    + split; [discriminate|]. by exists s1, s2.
    + cbn [inserted updated errors inserted_count updated_count error_count] in *. lia.
Qed.

(** [X25] [store_records] counts every record exactly once, as
    inserted, updated or in error: the three counts it returns add up to
    the number of records.  No exception raised while a record is
    handled escapes; a record whose settlement date is text that is not
    a date is counted as an error without the database being queried.
    Only the exception of the closing commit is raised, after a
    rollback; and an empty list is answered with zeros without touching
    the session, not even to commit. *)
Theorem store_records_counts (records : list (gmap string value)) (s : session) :
  store_records s [] = (inl (StorageResult 0 0 0), s)
  /\ (forall t record text,
        dict_get record "settlementDate" = VStr text -> strptime text = None ->
        store_record (t, s) record
        = (Tally (inserted_count t) (updated_count t) (error_count t + 1), s))
  /\ match store_records s records with
     | (inl result, s') =>
         inserted result + updated result + errors result = Z.of_nat (length records)
         /\ 0 <= inserted result /\ 0 <= updated result /\ 0 <= errors result
     | (inr e, s') =>
         records <> []
         /\ exists s1 s2, commit s1 = (Some e, s2) /\ s' = rollback s2
     end.
Proof.
  split; [reflexivity|]. split.
  - intros t record text Hdate Hparse. unfold Operations.store_record.
    rewrite Hdate, Hparse. reflexivity.
  - apply store_records_sum.
Qed.

End Session.

End StorageFacts.

(* ===================================================================== *)
(** * From the request to the database *)
(* ===================================================================== *)

Module EndToEndFacts.
Import Fetcher Preprocessing Spec PyFacts FetcherChecks Operations DataRoute
       DeduplicatorFacts NormalizerAlgebra AgreementFacts RouteFacts StorageFacts.

Section Route.
Context {net : Type} (http_get : net -> Z -> Z -> response * net).
Context (strptime : string -> option Z).
Context (py_mean : list value -> result float).
Context {session row timestamp E : Type}.
Context (fromisoformat : string -> option timestamp).
Context (query_first : session -> @column timestamp -> value -> value
                       -> (option row + E) * session).
Context (update : session -> row -> @columns timestamp -> session).
Context (add : session -> @columns timestamp -> session).
Context (commit : session -> option E * session)
        (rollback : session -> session).

(** [X26] The pipeline with the database operations of the repository
    behind it.  When it returns, the number of records stored is at most
    the number of natural keys among the fetched records, which is at
    most the number of fetched records: deduplication leaves one record
    for each key, normalization keeps them all, and the database counts
    each of them once, stored or in error. *)
Theorem stored_at_most_fetched (start_date end_date : string)
    (w : @world net) (s : session) :
  exists out w' s',
    _fetch_and_process_data http_get strptime py_mean
      (store_records strptime fromisoformat query_first update add commit rollback)
      start_date end_date w s
    = Some (out, w', s')
    /\ match out with
       | Done result =>
           exists raw_data,
             fetch_generation_data http_get strptime start_date end_date w
             = Some (Ok raw_data, w')
             /\ fetched result = Z.of_nat (length raw_data)
             /\ 0 <= stored result <= Z.of_nat (length (first_keys raw_data))
             /\ Z.of_nat (length (first_keys raw_data)) <= fetched result
       | Failed _ => True
       end.
Proof.
  destruct (fetch_and_process_cases http_get strptime py_mean
              (store_records strptime fromisoformat query_first update add commit rollback)
              start_date end_date w s)
    as (out & w' & s' & Hrun & r & Hfetch & Hout).
  exists out, w', s'. split; [exact Hrun|].
  destruct out as [result|]; [|exact I].
  destruct Hout as (_ & raw & deduplicated & storage & -> & Hfetched & _ & Hdedup
                    & Hstore & Hstored).
  exists raw. split; [exact Hfetch|]. split; [exact Hfetched|].
  pose proof (store_records_sum strptime fromisoformat query_first update add commit
                rollback (handle_missing_fields deduplicated) s) as Hsum.
  rewrite Hstore in Hsum.
  pose proof (Forall2_length _ _ _ (handle_missing_fields_normalizes deduplicated)) as Hlen.
  destruct (deduplicate_cover _ _ Hdedup) as (_ & _ & Hkeys).
  destruct (group_records_closed raw) as (_ & _ & _ & _ & Hle).
  lia.
Qed.

End Route.

End EndToEndFacts.

(* ===================================================================== *)
(** * Retrieving stored rows *)
(* ===================================================================== *)

Module RetrieveFacts.
Import RetrieveRoute.

Section Rows.
Context {timestamp decimal E : Type}.
Context (nonzero : decimal -> bool) (to_float : decimal -> float).
Context {db : Type}
        (get_data : db -> option Z -> option Z -> option (list string) -> option Z
                    -> list (@row timestamp decimal) + E).

Lemma convert_loop (records : list (@row timestamp decimal)) :
  forall data : list (@DataRecord timestamp),
    convert nonzero to_float records data
    = (fun out => data ++ out) <$> mapM (to_DataRecord nonzero to_float) records.
Proof.
  induction records as [|record records IH]; intros data; cbn [convert mapM].
  - cbn. by rewrite app_nil_r.
  - destruct (to_DataRecord nonzero to_float record) as [r|]; [|reflexivity].
    cbn [mbind option_bind]. rewrite IH.
    destruct (mapM (to_DataRecord nonzero to_float) records) as [out|]; cbn;
      [by rewrite <- app_assoc | reflexivity].
Qed.

Lemma to_DataRecord_accepts (record : @row timestamp decimal) :
  is_Some (to_DataRecord nonzero to_float record)
  <-> is_Some (row_settlement_date record) /\ is_Some (row_settlement_period record)
      /\ is_Some (row_psr_type record).
Proof.
  unfold to_DataRecord.
  destruct (row_settlement_date record) as [d|]; cbn;
    [|split; [intros [? [=]] | intros ([? [=]] & _)]].
  destruct (row_settlement_period record) as [p|]; cbn;
    [|split; [intros [? [=]] | intros (_ & [? [=]] & _)]].
  destruct (row_psr_type record) as [t|]; cbn;
    [|split; [intros [? [=]] | intros (_ & _ & [? [=]])]].
  assert (exists f, str_or (row_fuel_type record) (Some t) = Some f) as [f ->].
  { unfold str_or. destruct (row_fuel_type record) as [s|]; [|eauto].
    destruct (String.eqb s ""); eauto. }
  assert (exists g, str_or (row_region record) (Some "GB"%string) = Some g) as [g ->].
  { unfold str_or. destruct (row_region record) as [s|]; [|eauto].
    destruct (String.eqb s ""); eauto. }
  cbn. split; eauto.
Qed.

(** [X27] The retrieve endpoint answers every request with status
    "success" or fails with status 500.  It succeeds exactly when the
    database returns rows that all have a settlement date, a settlement
    period and a [psrType]: one row with a null in one of these makes
    the whole request fail.  On success [count] is the number of rows,
    and each record shows the quantity 0.0 for a null or zero quantity,
    the [psrType] for a null or empty fuel type, and "GB" for a null or
    empty region. *)
Theorem retrieve_data_rows (request : RetrieveDataRequest) (d : db) :
  match retrieve_data nonzero to_float get_data request d with
  | inr response =>
      status response = "success"%string
      /\ count response = Z.of_nat (length (data response))
      /\ exists records,
           get_data d (start_date request) (end_date request)
             (match fuel_types request with
              | Some (ft :: fts) => Some (FuelType_value <$> (ft :: fts))
              | _ => None
              end) (limit request) = inl records
           /\ Forall2 (fun record r =>
                         row_settlement_date record = Some (settlement_date r)
                         /\ row_settlement_period record = Some (settlement_period r)
                         /\ row_psr_type record = Some (psr_type r)
                         /\ quantity r
                            = match row_quantity record with
                              | Some q => if nonzero q then to_float q else 0%float
                              | None => 0%float
                              end
                         /\ Some (fuel_type r)
                            = str_or (row_fuel_type record) (row_psr_type record)
                         /\ Some (region r)
                            = str_or (row_region record) (Some "GB"%string)
                         /\ publish_time r = row_publish_time record)
                      records (data response)
  | inl (HTTPException status_code detail) =>
      status_code = 500
      /\ match detail with
         | DatabaseError e =>
             get_data d (start_date request) (end_date request)
               (match fuel_types request with
                | Some (ft :: fts) => Some (FuelType_value <$> (ft :: fts))
                | _ => None
                end) (limit request) = inr e
         | ValidationError =>
             exists records,
               get_data d (start_date request) (end_date request)
                 (match fuel_types request with
                  | Some (ft :: fts) => Some (FuelType_value <$> (ft :: fts))
                  | _ => None
                  end) (limit request) = inl records
               /\ Exists (fun record =>
                            row_settlement_date record = None
                            \/ row_settlement_period record = None
                            \/ row_psr_type record = None) records
         end
  end.
Proof.
  unfold retrieve_data.
  destruct (get_data d _ _ _ _) as [records|e]; [|by split].
  rewrite convert_loop.
  destruct (mapM (to_DataRecord nonzero to_float) records) as [out|] eqn:Hout; cbn.
  - split; [reflexivity|]. split; [reflexivity|]. exists records.
    split; [reflexivity|]. apply mapM_Some in Hout.
    eapply Forall2_impl; [exact Hout|]. intros record r. unfold to_DataRecord.
    destruct (row_settlement_date record); [|discriminate].
    destruct (row_settlement_period record); [|discriminate].
    destruct (row_psr_type record); [|discriminate]. cbn.
    destruct (str_or (row_fuel_type record) (Some s)); [|discriminate].
    destruct (str_or (row_region record) (Some "GB"%string)); [|discriminate].
    cbn. intros [= <-]. cbn. auto 10.
  - split; [reflexivity|]. exists records. split; [reflexivity|].
    apply mapM_None in Hout. apply Exists_exists.
    apply Exists_exists in Hout as (record & Hin & Hnone).
    exists record. split; [exact Hin|].
    pose proof (to_DataRecord_accepts record) as Hacc. rewrite Hnone in Hacc.
    destruct (row_settlement_date record); [|by left].
    destruct (row_settlement_period record); [|by right; left].
    destruct (row_psr_type record); [|by right; right].
    exfalso. destruct (proj2 Hacc) as [? [=]]. eauto.
Qed.

End Rows.

End RetrieveFacts.

(* ===================================================================== *)
(** * The repository's tests, replayed on the model *)
(* ===================================================================== *)

Module RepositoryTests.
Import Fetcher Preprocessing Spec.
#[local] Set Warnings "-inexact-float".

(** test_deduplicate_data_no_duplicates *)
Example deduplicate_data_no_duplicates :
  views ["settlementPeriod"; "quantity"; "publishTime"]
    (deduplicate_data [solar 1 (201 # 2) (VStr "2024-01-01T00:00:00Z");
                       solar 2 (110 # 1) (VStr "2024-01-01T00:30:00Z")])
  = Ok [[Some (VInt 1); Some (VFloat (201 # 2)); Some (VStr "2024-01-01T00:00:00Z")];
        [Some (VInt 2); Some (VFloat (110 # 1)); Some (VStr "2024-01-01T00:30:00Z")]].
Proof. vm_compute. reflexivity. Qed.

(** test_deduplicate_data_multiple_fuel_types *)
Example deduplicate_data_multiple_fuel_types :
  views ["psrType"; "quantity"]
    (deduplicate_data
       [solar 1 (201 # 2) (VStr "2024-01-01T00:00:00Z");
        <["psrType" := VStr "Wind Onshore"]>
          (solar 1 (200 # 1) (VStr "2024-01-01T00:00:00Z"));
        solar 1 (110 # 1) (VStr "2024-01-01T01:00:00Z")])
  = Ok [[Some (VStr "Solar"); Some (VFloat (110 # 1))];
        [Some (VStr "Wind Onshore"); Some (VFloat (200 # 1))]].
Proof. vm_compute. reflexivity. Qed.

(** test_handle_missing_fields_partial_record and
    test_handle_missing_fields_extra_fields *)
Example handle_missing_fields_partial_record :
  view ["psrType"; "quantity"; "publishTime"; "businessType"; "fuelType"; "region";
        "extraField"; "unknown"]
    <$> handle_missing_fields
          [<["extraField" := VStr "extra_value"]>
             (observation (VStr "2024-01-01") (VInt 1) (VStr "Solar") (VFloat (201 # 2)))]
  = [[Some (VStr "Solar"); Some (VFloat (201 # 2)); Some VNone; Some VNone; Some VNone;
      Some VNone; Some (VStr "extra_value"); None]].
Proof. vm_compute. reflexivity. Qed.

(** test_validate_processed_data_missing_critical_fields *)
Example validate_processed_data_missing_critical_fields :
  figures_of
    (validate_processed_data zero_mean
       [observation (VStr "2024-01-01") (VInt 1) VNone (VFloat (201 # 2));
        observation VNone (VInt 1) (VStr "Solar") VNone])
  = Ok (Some (2, 2, 0%float,
              [Some (MissingStat 1 50%float); None;
               Some (MissingStat 1 50%float); Some (MissingStat 1 50%float)],
              [VStr "Solar"], Some (VStr "2024-01-01"), Some (VStr "2024-01-01"))).
Proof. vm_compute. reflexivity. Qed.

(** test_validate_processed_data_partial_missing *)
Example validate_processed_data_partial_missing :
  figures_of
    (validate_processed_data zero_mean
       [observation (VStr "2024-01-01") (VInt 1) (VStr "Solar") (VFloat (201 # 2));
        observation (VStr "2024-01-02") VNone (VStr "Wind Onshore") (VFloat (150 # 1))])
  = Ok (Some (2, 1, 50%float,
              [None; Some (MissingStat 1 50%float); None; None],
              [VStr "Solar"; VStr "Wind Onshore"],
              Some (VStr "2024-01-01"), Some (VStr "2024-01-02"))).
Proof. vm_compute. reflexivity. Qed.

(** test_preprocessing_with_poor_quality_data *)
Example preprocessing_with_poor_quality_data :
  figures_of
    (preprocess zero_mean
       [observation VNone (VInt 1) (VStr "Solar") (VFloat (201 # 2));
        observation (VStr "2024-01-01") VNone VNone (VFloat (150 # 1));
        observation (VStr "2024-01-02") (VInt 1) (VStr "Wind Offshore") (VFloat (300 # 1))])
  = Ok (Some (3, 2, 33.33%float,
              [Some (MissingStat 1 33.33333333333333%float);
               Some (MissingStat 1 33.33333333333333%float);
               Some (MissingStat 1 33.33333333333333%float); None],
              [VStr "Solar"; VStr "Wind Offshore"],
              Some (VStr "2024-01-01"), Some (VStr "2024-01-02"))).
Proof. vm_compute. reflexivity. Qed.

(** test_complete_client_requirements, up to the database: two days
    fetched in one chunk, four records, all of them complete. *)
Example complete_pipeline :
  match fetch_generation_data (always (RespData mock_api_data)) example_strptime
          "2024-01-01" "2024-01-02" (World () []) with
  | Some (Ok raw_data, w) =>
      Some (length raw_data, trace w, figures_of (preprocess zero_mean raw_data))
  | _ => None
  end
  = Some (4%nat, [EvRequest 738886 738887; EvSummary 1 0],
          Ok (Some (4, 0, 100%float, [None; None; None; None],
                    [VStr "Solar"; VStr "Wind Offshore"; VStr "Wind Onshore"],
                    Some (VStr "2024-01-01"), Some (VStr "2024-01-02")))).
Proof. vm_compute. reflexivity. Qed.

(** Outside the data model: a quantity that is text beside one that is a
    number makes [min(quantities)] raise, and the gate with it. *)
Example validate_processed_data_text_quantity :
  validate_processed_data zero_mean
    [observation (VStr "2024-01-01") (VInt 1) (VStr "Solar") (VStr "abc");
     observation (VStr "2024-01-01") (VInt 2) (VStr "Solar") (VFloat (150 # 1))]
  = Raise TypeError.
Proof. vm_compute. reflexivity. Qed.

End RepositoryTests.
